(** * SETBP1 literature search: a shallow embedding and its properties

    The development follows [setbp1_literature_search.py] (the class
    [SETBPLiteratureSearch] and the command line entry [main]) and the search
    function of [streamlit_app.py].

    Conventions of the embedding.
    - Python [str] values are [string]s of ASCII code points.  The built-in
      string methods the program calls are written out in module [Py], with
      Python's own notion of white space on that range.
    - A paper is the dictionary the adapters build: always the same seven keys,
      so it is a record, and [paper.get(k, default)] is a field access.
    - Network replies are data: what [requests.get(..).json()] decoded, or the
      fact that the call (or [raise_for_status], or the decoding) raised.
      A reply is typed by the schema of the endpoint it answers; an absent key
      is [None] at that field, which is where the program's [.get] defaults
      apply.
    - Effects (requests, sleeps, saved files) are threaded through a [world];
      exceptions are results.  [print] calls are left out: no property below
      is about the text printed.  The libraries that write the files
      (openpyxl, reportlab) are taken to store what they are given. *)

From Stdlib Require Import ZArith List Ascii String Bool Lia.
From stdpp Require Import base gmap strings list pretty.

Local Open Scope Z_scope.

(* ================================================================== *)
(** * Python built-ins used by the program *)
(* ================================================================== *)

Module Py.

(** [str.isspace] on one ASCII code point: TAB, LF, VT, FF, CR, the four
    separators 0x1c-0x1f and the space. *)
Definition isspace (c : ascii) : bool :=
  let n := nat_of_ascii c in
  ((9 <=? n)%nat && (n <=? 13)%nat) || ((28 <=? n)%nat && (n <=? 32)%nat).

Definition is_empty (s : string) : bool :=
  match s with EmptyString => true | String _ _ => false end.

(** Truth value of a [str]: empty is false. *)
Definition truthy (s : string) : bool := negb (is_empty s).

Definition snoc (s : string) (c : ascii) : string := s +:+ String c EmptyString.

(** [s.split()]: the maximal runs of characters that are not white space.
    [cur] is the run being read. *)
Fixpoint split_from (cur : string) (s : string) : list string :=
  match s with
  | EmptyString => if is_empty cur then [] else [cur]
  | String c rest =>
      if isspace c
      then (if is_empty cur then split_from EmptyString rest
            else cur :: split_from EmptyString rest)
      else split_from (snoc cur c) rest
  end.

Definition split (s : string) : list string := split_from EmptyString s.

(** [s.split(sep)] for a one-character separator: never an empty list. *)
Fixpoint split_on_from (sep : ascii) (cur : string) (s : string) : list string :=
  match s with
  | EmptyString => [cur]
  | String c rest =>
      if Ascii.eqb c sep then cur :: split_on_from sep EmptyString rest
      else split_on_from sep (snoc cur c) rest
  end.

Definition split_on (sep : ascii) (s : string) : list string :=
  split_on_from sep EmptyString s.

(** [s.lstrip()], [s.rstrip()], [s.strip()] *)
Fixpoint lstrip (s : string) : string :=
  match s with
  | EmptyString => EmptyString
  | String c rest => if isspace c then lstrip rest else s
  end.

Fixpoint rstrip_by (drop : ascii -> bool) (s : string) : string :=
  match s with
  | EmptyString => EmptyString
  | String c rest =>
      let rest' := rstrip_by drop rest in
      if is_empty rest' && drop c then EmptyString else String c rest'
  end.

Definition strip (s : string) : string := rstrip_by isspace (lstrip s).

(** [s.rstrip(chars)] *)
Definition rstrip_chars (chars : string) (s : string) : string :=
  rstrip_by (fun c => existsb (Ascii.eqb c) (list_ascii_of_string chars)) s.

(** [s.lower()] *)
Definition lower_char (c : ascii) : ascii :=
  let n := nat_of_ascii c in
  if (65 <=? n)%nat && (n <=? 90)%nat then ascii_of_nat (n + 32) else c.

Fixpoint lower (s : string) : string :=
  match s with
  | EmptyString => EmptyString
  | String c rest => String (lower_char c) (lower rest)
  end.

(** [s.replace(old, new)] for a one-character [old] *)
Fixpoint replace_char (old : ascii) (new : string) (s : string) : string :=
  match s with
  | EmptyString => EmptyString
  | String c rest =>
      if Ascii.eqb c old then new +:+ replace_char old new rest
      else String c (replace_char old new rest)
  end.

(** [sep.join(l)] *)
Fixpoint join (sep : string) (l : list string) : string :=
  match l with
  | [] => EmptyString
  | [x] => x
  | x :: rest => x +:+ sep +:+ join sep rest
  end.

(** [sub in s] on strings *)
Fixpoint contains (sub : string) (s : string) : bool :=
  String.prefix sub s ||
  match s with
  | EmptyString => false
  | String _ rest => contains sub rest
  end.

(** [l[:n]]: a negative bound counts from the end. *)
Definition slice_to {A} (n : Z) (l : list A) : list A :=
  if 0 <=? n then take (Z.to_nat n) l
  else take (length l - Z.to_nat (- n))%nat l.

(** [s[:n]] for a bound that is not negative *)
Fixpoint prefix_of (n : nat) (s : string) : string :=
  match n, s with
  | O, _ => EmptyString
  | S _, EmptyString => EmptyString
  | S k, String c rest => String c (prefix_of k rest)
  end.

(** The double quote, for the markup the program writes. *)
Definition dquote : string := String (ascii_of_nat 34) EmptyString.

End Py.

(* ================================================================== *)
(** * The paper record *)
(* ================================================================== *)

(** The dictionary built at lines 100-109 and 174-182. *)
Record paper := Paper {
  pmid : string;
  title : string;
  authors : string;
  journal : string;
  year : string;
  doi : string;
  source : string
}.

(* ================================================================== *)
(** * Summarizer *)
(* ================================================================== *)

(** [create_summary(title, max_words)] *)
Definition create_summary (title : string) (max_words : Z) : string :=
  let words := Py.split title in
  let summary_words :=
    if Z.of_nat (length words) <=? max_words
    then Py.slice_to max_words words
    else Py.slice_to (max_words - 1) words in
  let summary := Py.join " " summary_words in
  if max_words <? Z.of_nat (length words)
  then Py.rstrip_chars ".,;:" summary +:+ "..."
  else summary.

(** The [skip] set of [create_key_findings]. *)
Definition skip : list string :=
  ["the"; "a"; "an"; "in"; "on"; "at"; "to"; "for"; "of"; "and"; "with"].

Definition in_skip (w : string) : bool := existsb (String.eqb w) skip.

(** [create_key_findings(title, abstract, max_words)]; [abstract] is not read. *)
Definition create_key_findings (title : string) (abstract : string) (max_words : Z) : string :=
  let words := Py.split (Py.replace_char ":" " " title) in
  let filtered :=
    List.filter
      (fun w =>
         negb (in_skip (Py.lower w))
         || (length (List.filter (fun x => negb (in_skip (Py.lower x))) words) <? 10)%nat)
      words in
  let key_words := Py.slice_to max_words filtered in
  Py.join " " key_words.

(** [extract_last_author_name(authors_string)] *)
Definition extract_last_author_name (authors_string : string) : string :=
  if negb (Py.truthy authors_string) then EmptyString
  else
    let authors := map Py.strip (Py.split_on "," authors_string) in
    match last authors with
    | None => EmptyString
    | Some last_author =>
        match Py.split last_author with
        | [] => EmptyString
        | first :: _ => first
        end
    end.

(* ================================================================== *)
(** * Relevance filter and classifier *)
(* ================================================================== *)

Definition SETBP1_KEYWORDS : list string :=
  ["setbp1"; "schinzel-giedion"; "schinzel giedion"; "sgd"; "set binding protein 1"].

(** [any(kw in text for kw in kws)] *)
Definition any_in (kws : list string) (text : string) : bool :=
  existsb (fun kw => Py.contains kw text) kws.

(** [_is_setbp1_relevant(title, abstract)] *)
Definition _is_setbp1_relevant (title abstract : string) : bool :=
  let text := Py.lower (title +:+ " " +:+ abstract) in
  any_in SETBP1_KEYWORDS text.

(** The dictionary of five lists that [categorize_papers] returns. *)
Record categories := Categories {
  mechanism : list paper;
  therapeutics : list paper;
  models : list paper;
  dataset : list paper;
  other : list paper
}.

Definition mechanism_terms : list string :=
  ["mechanism"; "pathway"; "signaling"; "function"; "structure"].
Definition therapeutics_terms : list string :=
  ["drug"; "therapeutic"; "treatment"; "inhibitor"; "trial"].
Definition models_terms : list string :=
  ["mouse"; "mice"; "rat"; "model"; "crispr"; "cell"; "in vitro"].
Definition dataset_terms : list string :=
  ["cohort"; "registry"; "dataset"; "population"].

(** One turn of the loop of [categorize_papers]: the if/elif chain appends the
    paper to one list. *)
Definition categorize_step (cats : categories) (p : paper) : categories :=
  let title_lower := Py.lower (title p) in
  if any_in mechanism_terms title_lower then
    {| mechanism := mechanism cats ++ [p]; therapeutics := therapeutics cats;
       models := models cats; dataset := dataset cats; other := other cats |}
  else if any_in therapeutics_terms title_lower then
    {| mechanism := mechanism cats; therapeutics := therapeutics cats ++ [p];
       models := models cats; dataset := dataset cats; other := other cats |}
  else if any_in models_terms title_lower then
    {| mechanism := mechanism cats; therapeutics := therapeutics cats;
       models := models cats ++ [p]; dataset := dataset cats; other := other cats |}
  else if any_in dataset_terms title_lower then
    {| mechanism := mechanism cats; therapeutics := therapeutics cats;
       models := models cats; dataset := dataset cats ++ [p]; other := other cats |}
  else
    {| mechanism := mechanism cats; therapeutics := therapeutics cats;
       models := models cats; dataset := dataset cats; other := other cats ++ [p] |}.

Definition empty_categories : categories :=
  {| mechanism := []; therapeutics := []; models := []; dataset := []; other := [] |}.

(** [categorize_papers(papers)] *)
Definition categorize_papers (papers : list paper) : categories :=
  fold_left categorize_step papers empty_categories.

(** The specification's reading of the classifier: whether a title holds a
    term of a trigger set, without regard to case; then the five tests in
    their order of priority. *)
Definition hits (terms : list string) (p : paper) : bool :=
  existsb (fun w => Py.contains w (Py.lower (title p))) terms.

Definition is_mechanism (p : paper) : bool := hits mechanism_terms p.
Definition is_therapeutics (p : paper) : bool :=
  negb (hits mechanism_terms p) && hits therapeutics_terms p.
Definition is_models (p : paper) : bool :=
  negb (hits mechanism_terms p) && negb (hits therapeutics_terms p)
  && hits models_terms p.
Definition is_dataset (p : paper) : bool :=
  negb (hits mechanism_terms p) && negb (hits therapeutics_terms p)
  && negb (hits models_terms p) && hits dataset_terms p.
Definition is_other (p : paper) : bool :=
  negb (hits mechanism_terms p) && negb (hits therapeutics_terms p)
  && negb (hits models_terms p) && negb (hits dataset_terms p).

(* ================================================================== *)
(** * Report links *)
(* ================================================================== *)

(** [_paper_link(paper)] *)
Definition _paper_link (p : paper) : string :=
  if Py.truthy (doi p) then "https://doi.org/" +:+ doi p
  else if Py.truthy (pmid p) then "https://pubmed.ncbi.nlm.nih.gov/" +:+ pmid p +:+ "/"
  else EmptyString.

(** The markup [<link href="HREF" color="blue">TEXT</link>] of the document
    renderer. *)
Definition link_markup (href text : string) : string :=
  "<link href=" +:+ Py.dquote +:+ href +:+ Py.dquote
  +:+ " color=" +:+ Py.dquote +:+ "blue" +:+ Py.dquote +:+ ">"
  +:+ text +:+ "</link>".

(** [_paper_link_label(paper)] *)
Definition _paper_link_label (p : paper) : string :=
  let link := _paper_link p in
  if negb (Py.truthy link) then EmptyString
  else if Py.truthy (pmid p) then link_markup link ("PMID: " +:+ pmid p)
  else if Py.truthy (doi p) then link_markup link ("DOI: " +:+ doi p)
  else EmptyString.

(* ================================================================== *)
(** * Tabular renderer *)
(* ================================================================== *)

(** What the program sets on a cell besides its value. *)
Inductive cell_style := NoStyle | HeaderStyle | LinkStyle.

(** A cell of the worksheet; a cell that [ws.cell(row, column)] just created
    has no value. *)
Record cell := Cell {
  value : option string;
  hyperlink : option string;
  style : cell_style
}.

Definition fresh_cell : cell :=
  {| value := None; hyperlink := None; style := NoStyle |}.

(** The worksheet is the dictionary of its cells, keyed by (row, column), both
    counted from 1 as the program does. *)
Definition cell_at (row col : nat) (ws : gmap (nat * nat) cell) : cell :=
  default fresh_cell (ws !! (row, col)).

(** [ws.cell(row=.., column=.., value=v)] and [cell.value = v] *)
Definition set_value (row col : nat) (v : string) (ws : gmap (nat * nat) cell)
  : gmap (nat * nat) cell :=
  let c := cell_at row col ws in
  <[(row, col) := {| value := Some v; hyperlink := hyperlink c; style := style c |}]> ws.

(** [cell.fill], [cell.font] and [cell.alignment] of a header *)
Definition set_header_style (row col : nat) (ws : gmap (nat * nat) cell)
  : gmap (nat * nat) cell :=
  let c := cell_at row col ws in
  <[(row, col) := {| value := value c; hyperlink := hyperlink c; style := HeaderStyle |}]> ws.

(** [cell.hyperlink = link] followed by the blue underlined font *)
Definition set_hyperlink (row col : nat) (link : string) (ws : gmap (nat * nat) cell)
  : gmap (nat * nat) cell :=
  let c := cell_at row col ws in
  <[(row, col) := {| value := value c; hyperlink := Some link; style := LinkStyle |}]> ws.

Definition headers : list string :=
  [""; ""; ""; "Summary"; "Last Author"; "Journal"; "Key Findings"; ""; ""; "Link"]%string.

(** The loop over [enumerate(headers, 1)], from column [col_num] on. *)
Fixpoint write_headers (col_num : nat) (hs : list string) (ws : gmap (nat * nat) cell)
  : gmap (nat * nat) cell :=
  match hs with
  | [] => ws
  | header :: rest =>
      let ws1 := set_value 1 col_num header ws in
      let ws2 := if Py.truthy header then set_header_style 1 col_num ws1 else ws1 in
      write_headers (S col_num) rest ws2
  end.

(** The link of column J, lines 356-364. *)
Definition excel_link (p : paper) : string :=
  if Py.truthy (doi p) then "https://doi.org/" +:+ doi p
  else if Py.truthy (pmid p) then "https://pubmed.ncbi.nlm.nih.gov/" +:+ pmid p +:+ "/"
  else EmptyString.

(** The body of the loop over [enumerate(papers, start=2)]. *)
Definition write_row (idx : nat) (p : paper) (ws : gmap (nat * nat) cell)
  : gmap (nat * nat) cell :=
  let ws := set_value idx 1 EmptyString ws in
  let ws := set_value idx 2 EmptyString ws in
  let ws := set_value idx 3 EmptyString ws in
  let summary := create_summary (title p) 7 in
  let ws := set_value idx 4 summary ws in
  let last_author := extract_last_author_name (authors p) in
  let ws := set_value idx 5 last_author ws in
  let ws := set_value idx 6 (journal p) ws in
  let key_findings := create_key_findings (title p) EmptyString 20 in
  let ws := set_value idx 7 key_findings ws in
  let ws := set_value idx 8 EmptyString ws in
  let ws := set_value idx 9 EmptyString ws in
  let link := excel_link p in
  if Py.truthy link
  then set_hyperlink idx 10 link (set_value idx 10 link ws)
  else ws.

Fixpoint write_rows (idx : nat) (papers : list paper) (ws : gmap (nat * nat) cell)
  : gmap (nat * nat) cell :=
  match papers with
  | [] => ws
  | p :: rest => write_rows (S idx) rest (write_row idx p ws)
  end.

(** Column widths, by column letter. *)
Definition column_widths : list (string * Z) :=
  [("A", 5); ("B", 5); ("C", 5); ("D", 35); ("E", 15); ("F", 25); ("G", 60);
   ("H", 5); ("I", 5); ("J", 45)]%string.

Record workbook := Workbook {
  sheet_title : string;
  widths : list (string * Z);
  cells : gmap (nat * nat) cell
}.

(** The workbook [create_excel_report] has built when it calls [wb.save]. *)
Definition excel_workbook (papers : list paper) : workbook :=
  {| sheet_title := "SETBP1 Literature";
     widths := column_widths;
     cells := write_rows 2 papers (write_headers 1 headers ∅) |}.

(* ================================================================== *)
(** * Document renderer *)
(* ================================================================== *)

Inductive para_style :=
  | title_style | normal_style | heading1_style | heading2_style
  | body_style | citation_style.

(** The flowables the program puts in the story. *)
Inductive flowable :=
  | Paragraph (text : string) (st : para_style)
  | Spacer (width height : Z)
  | PageBreak
  | Table (rows : list (list string)).

(** The two paragraphs of one highlighted paper.  The bullet stands in the
    string as the bytes of its UTF-8 encoding. *)
Definition highlight (p : paper) : list flowable :=
  [ Paragraph ("• " +:+ title p) body_style;
    Paragraph ("<b>Citation:</b> " +:+ authors p +:+ ". " +:+ _paper_link_label p)
              citation_style ].

(** One block of the notable findings: nothing for an empty category, else the
    heading, the first [cap] papers and, when [spaced], a spacer. *)
Definition highlight_section (heading : string) (cap : Z) (spaced : bool)
    (ps : list paper) : list flowable :=
  match ps with
  | [] => []
  | _ :: _ =>
      Paragraph heading heading2_style
        :: flat_map highlight (Py.slice_to cap ps)
        ++ (if spaced then [Spacer 1 15] else [])
  end.

Definition notable_findings (cats : categories) : list flowable :=
  highlight_section "MECHANISM:" 3 true (mechanism cats)
  ++ highlight_section "THERAPEUTICS:" 4 true (therapeutics cats)
  ++ highlight_section "MODELS:" 4 true (models cats)
  ++ highlight_section "NEW DATA SETS:" 3 false (dataset cats).

(** The links under one entry of the complete list. *)
Definition link_parts (p : paper) : list string :=
  (if Py.truthy (pmid p)
   then [link_markup ("https://pubmed.ncbi.nlm.nih.gov/" +:+ pmid p +:+ "/")
                     ("PMID: " +:+ pmid p)]
   else [])
  ++ (if Py.truthy (doi p)
      then [link_markup ("https://doi.org/" +:+ doi p) ("DOI: " +:+ doi p)]
      else []).

(** The loop over [enumerate(papers, 1)]. *)
Fixpoint paper_entries (i : nat) (papers : list paper) : list flowable :=
  match papers with
  | [] => []
  | p :: rest =>
      [ Paragraph ("<b>" +:+ pretty i +:+ ". " +:+ title p +:+ "</b>") body_style;
        Paragraph (authors p +:+ ". <i>" +:+ journal p +:+ "</i>. " +:+ year p +:+ ".")
                  citation_style;
        Paragraph (Py.join " | " (link_parts p)) citation_style;
        Spacer 1 10 ]
      ++ paper_entries (S i) rest
  end.

(** The story [create_pdf_report] hands to [doc.build]. *)
Definition pdf_story (start_date end_date : string) (papers : list paper)
    (cats : categories) (pubmed_count biorxiv_count medrxiv_count : nat)
  : list flowable :=
  [ Paragraph "SETBP1 LITERATURE REVIEW" title_style;
    Paragraph ("Search Period: " +:+ start_date +:+ " to " +:+ end_date) normal_style;
    Spacer 1 20;
    Paragraph "SEARCH SUMMARY" heading1_style;
    Table [ ["PubMed Articles:"; pretty pubmed_count];
            ["bioRxiv Preprints:"; pretty biorxiv_count];
            ["medRxiv Preprints:"; pretty medrxiv_count];
            ["Total Papers:"; pretty (length papers)];
            ["Date Range:"; start_date +:+ " to " +:+ end_date] ]%string;
    Spacer 1 20;
    Paragraph "NOTABLE FINDINGS" heading1_style;
    Spacer 1 10 ]
  ++ notable_findings cats
  ++ [ PageBreak;
       Paragraph ("COMPLETE PAPER LIST (" +:+ pretty (length papers) +:+ " PAPERS)")
                 heading1_style;
       Spacer 1 15 ]
  ++ paper_entries 1 papers.

(* ================================================================== *)
(** * The world: network replies, effects, exceptions *)
(* ================================================================== *)

(** The exceptions the program can meet. [RequestError] stands for whatever
    [requests.get], [raise_for_status] or [.json()] raised. *)
Inductive exn := RequestError | IndexError | KeyError | ValueError | OverflowError.

Inductive outcome (A : Type) :=
  | Ok (a : A)
  | Raised (e : exn).
Arguments Ok {A} a.
Arguments Raised {A} e.

(** ** Reply schemas *)

(** [esearch.fcgi]: [{"esearchresult": {"idlist": [...]}}] *)
Record esearchresult_json := { idlist : option (list string) }.
Record esearch_json := { esearchresult : option esearchresult_json }.

(** [esummary.fcgi]: [{"result": {uid: article, ...}}] *)
Record author_json := { name : option string }.
Record articleid_json := { idtype : option string; id_value : option string }.
Record article_json := {
  a_title : option string;
  a_authors : option (list author_json);
  a_source : option string;
  a_pubdate : option string;
  a_articleids : option (list articleid_json)
}.
Record esummary_json := { result : option (gmap string article_json) }.

(** [api.biorxiv.org/details]: [{"collection": [...], "messages": [{"total": n}]}];
    the total comes as a number or as a string of digits. *)
Record item_json := {
  i_title : option string;
  i_abstract : option string;
  i_authors : option string;
  i_doi : option string;
  i_date : option string
}.
Inductive total_json := TotalInt (n : Z) | TotalStr (s : string).
Record message_json := { total : option total_json }.
Record details_json := {
  collection : option (list item_json);
  messages : option (list message_json)
}.

(** ** Effects *)

Record request := Request { url : string; params : list (string * string) }.

Inductive document :=
  | Xlsx (wb : workbook)
  | Pdf (story : list flowable).

(** What the program did, in order. [Sleep] is in milliseconds. *)
Inductive event :=
  | Get (req : request)
  | Sleep (ms : Z)
  | Save (filename : string).

(** The replies still to come from each endpoint ([None]: the [try] block of
    the request raised), the events so far and the files written.  A request
    past the end of the replies fails like a dropped connection. *)
Record world := World {
  esearch_replies : list (option esearch_json);
  esummary_replies : list (option esummary_json);
  details_replies : list (option details_json);
  log : list event;
  files : list (string * document)
}.

Definition record_event (e : event) (w : world) : world :=
  {| esearch_replies := esearch_replies w; esummary_replies := esummary_replies w;
     details_replies := details_replies w; log := log w ++ [e]; files := files w |}.

(** [time.sleep(seconds)], in milliseconds *)
Definition sleep (ms : Z) (w : world) : world := record_event (Sleep ms) w.

Definition get_esearch (req : request) (w : world) : option esearch_json * world :=
  let w1 := record_event (Get req) w in
  match esearch_replies w1 with
  | [] => (None, w1)
  | r :: rest =>
      (r, {| esearch_replies := rest; esummary_replies := esummary_replies w1;
             details_replies := details_replies w1; log := log w1; files := files w1 |})
  end.

Definition get_esummary (req : request) (w : world) : option esummary_json * world :=
  let w1 := record_event (Get req) w in
  match esummary_replies w1 with
  | [] => (None, w1)
  | r :: rest =>
      (r, {| esearch_replies := esearch_replies w1; esummary_replies := rest;
             details_replies := details_replies w1; log := log w1; files := files w1 |})
  end.

(** [wb.save(filename)] and [doc.build(story)] *)
Definition save_file (filename : string) (d : document) (w : world) : world :=
  let w1 := record_event (Save filename) w in
  {| esearch_replies := esearch_replies w1; esummary_replies := esummary_replies w1;
     details_replies := details_replies w1; log := log w1;
     files := files w1 ++ [(filename, d)] |}.

Definition is_get (e : event) : bool :=
  match e with Get _ => true | _ => false end.

Definition is_save (e : event) : bool :=
  match e with Save _ => true | _ => false end.

(* ================================================================== *)
(** * The searcher object *)
(* ================================================================== *)

Record searcher := Searcher {
  start_date : string;
  end_date : string;
  output_dir : string;
  all_papers : list paper;
  pubmed_base : string
}.

(** [__init__] *)
Definition init (start_date end_date output_dir : string) : searcher :=
  {| start_date := start_date; end_date := end_date; output_dir := output_dir;
     all_papers := [];
     pubmed_base := "https://eutils.ncbi.nlm.nih.gov/entrez/eutils/" |}.

Definition with_all_papers (self : searcher) (ps : list paper) : searcher :=
  {| start_date := start_date self; end_date := end_date self;
     output_dir := output_dir self; all_papers := ps;
     pubmed_base := pubmed_base self |}.

(* ================================================================== *)
(** * Structured-metadata adapter *)
(* ================================================================== *)

Definition pubmed_query : string :=
  "(" +:+ Py.dquote +:+ "SETBP1" +:+ Py.dquote
  +:+ " OR " +:+ Py.dquote +:+ "Schinzel-Giedion Syndrome" +:+ Py.dquote
  +:+ " OR " +:+ Py.dquote +:+ "Schinzel Giedion" +:+ Py.dquote
  +:+ " OR " +:+ Py.dquote +:+ "SET binding protein 1" +:+ Py.dquote +:+ ")".

Definition esearch_request (self : searcher) : request :=
  {| url := pubmed_base self +:+ "esearch.fcgi";
     params := [ ("db", "pubmed"); ("term", pubmed_query); ("retmax", "1000");
                 ("retmode", "json"); ("datetype", "pdat");
                 ("mindate", Py.replace_char "-" "/" (start_date self));
                 ("maxdate", Py.replace_char "-" "/" (end_date self)) ]%string |}.

(** [search_pubmed]: any exception in the [try] gives the empty list. *)
Definition search_pubmed (self : searcher) (w : world) : list string * world :=
  let '(reply, w1) := get_esearch (esearch_request self) w in
  match reply with
  | None => ([], w1)
  | Some data =>
      let pmids :=
        default [] (idlist (default {| idlist := None |} (esearchresult data))) in
      (pmids, w1)
  end.

Definition esummary_request (self : searcher) (batch : list string) : request :=
  {| url := pubmed_base self +:+ "esummary.fcgi";
     params := [ ("db", "pubmed"); ("id", Py.join "," batch);
                 ("retmode", "json") ]%string |}.

(** The generator handed to [next(.., '')]: the value of the first id tagged
    [doi]; later ids are not looked at. *)
Fixpoint first_doi (ids : list articleid_json) : outcome string :=
  match ids with
  | [] => Ok EmptyString
  | id :: rest =>
      match idtype id with
      | Some t =>
          if String.eqb t "doi"
          then match id_value id with
               | Some v => Ok v
               | None => Raised KeyError
               end
          else first_doi rest
      | None => first_doi rest
      end
  end.

(** The [year] entry: the first word of a [pubdate] that is not empty. *)
Definition pubdate_year (article : article_json) : outcome string :=
  match a_pubdate article with
  | None => Ok EmptyString
  | Some pd =>
      if Py.truthy pd
      then match Py.split pd with
           | [] => Raised IndexError
           | y :: _ => Ok y
           end
      else Ok EmptyString
  end.

(** The [metadata] dictionary of one article, lines 96-109. *)
Definition article_metadata (pmid : string) (article : article_json) : outcome paper :=
  let all_authors :=
    map (fun a => default EmptyString (name a)) (default [] (a_authors article)) in
  let authors_string :=
    match all_authors with
    | [] => EmptyString
    | _ :: _ => Py.join ", " all_authors
    end in
  match pubdate_year article with
  | Raised e => Raised e
  | Ok y =>
      match first_doi (default [] (a_articleids article)) with
      | Raised e => Raised e
      | Ok d =>
          Ok {| pmid := pmid;
                title := default EmptyString (a_title article);
                authors := authors_string;
                journal := default EmptyString (a_source article);
                year := y;
                doi := d;
                source := "PubMed" |}
      end
  end.

(** The loop [for pmid in batch] inside the [try]: it appends to
    [all_metadata] as it goes, and what it appended stays when it raises. *)
Fixpoint collect (res : gmap string article_json) (batch : list string)
    (all_metadata : list paper) : outcome unit * list paper :=
  match batch with
  | [] => (Ok tt, all_metadata)
  | pmid :: rest =>
      match res !! pmid with
      | None => collect res rest all_metadata
      | Some article =>
          match article_metadata pmid article with
          | Ok metadata => collect res rest (all_metadata ++ [metadata])
          | Raised e => (Raised e, all_metadata)
          end
      end
  end.

Definition max_retries : nat := 3.

(** One pass through the [try] block of an attempt. *)
Definition attempt_batch (self : searcher) (batch : list string)
    (all_metadata : list paper) (w : world) : outcome unit * list paper * world :=
  let '(reply, w1) := get_esummary (esummary_request self batch) w in
  match reply with
  | None => (Raised RequestError, all_metadata, w1)
  | Some summary_data =>
      let '(r, all1) := collect (default ∅ (result summary_data)) batch all_metadata in
      (r, all1, w1)
  end.

(** The loop [for attempt in range(max_retries)] over the attempts left. *)
Fixpoint retry_loop (self : searcher) (attempts : list nat) (batch : list string)
    (all_metadata : list paper) (w : world) : list paper * world :=
  match attempts with
  | [] => (all_metadata, w)
  | attempt :: later =>
      match attempt_batch self batch all_metadata w with
      | (Ok _, all1, w1) => (all1, w1)
      | (Raised _, all1, w1) =>
          if (attempt <? max_retries - 1)%nat
          then
            let wait_time := (Z.of_nat attempt + 1) * 2 in
            retry_loop self later batch all1 (sleep (wait_time * 1000) w1)
          else retry_loop self later batch all1 w1
      end
  end.

(** The loop [for i in range(0, len(pmids), batch_size)] over the offsets
    left. *)
Fixpoint batch_loop (self : searcher) (offsets : list nat) (pmids : list string)
    (batch_size : nat) (all_metadata : list paper) (w : world) : list paper * world :=
  match offsets with
  | [] => (all_metadata, w)
  | i :: rest =>
      let batch := take batch_size (drop i pmids) in
      let '(all1, w1) := retry_loop self (seq 0 max_retries) batch all_metadata w in
      batch_loop self rest pmids batch_size all1 (sleep 500 w1)
  end.

(** [range(0, stop, step)] for a positive step: [0, step, 2*step, ...] below
    [stop]. *)
Fixpoint range_from (fuel i stop step : nat) : list nat :=
  match fuel with
  | O => []
  | S fuel' => if (i <? stop)%nat then i :: range_from fuel' (i + step) stop step else []
  end.

Definition range_step (stop step : nat) : list nat := range_from stop 0 stop step.

(** [get_pubmed_metadata(pmids, batch_size)]; the batch size is positive, as
    the one value the program uses (100) is. *)
Definition get_pubmed_metadata (self : searcher) (pmids : list string)
    (batch_size : positive) (w : world) : list paper * world :=
  batch_loop self (range_step (length pmids) (Pos.to_nat batch_size)) pmids
    (Pos.to_nat batch_size) [] w.

(* ================================================================== *)
(** * Preprint adapters *)
(* ================================================================== *)

Module PyInt.

Definition digit_value (c : ascii) : option Z :=
  let n := nat_of_ascii c in
  if (48 <=? n)%nat && (n <=? 57)%nat then Some (Z.of_nat (n - 48)) else None.

(** Decimal digits, single underscores allowed between two digits.
    [after_digit] tells whether the last character read was a digit. *)
Fixpoint digits (acc : Z) (after_digit : bool) (s : string) : option Z :=
  match s with
  | EmptyString => if after_digit then Some acc else None
  | String c rest =>
      match digit_value c with
      | Some d => digits (10 * acc + d) true rest
      | None =>
          if Ascii.eqb c "_" && after_digit
          then match rest with
               | EmptyString => None
               | String c' _ =>
                   match digit_value c' with
                   | Some _ => digits acc false rest
                   | None => None
                   end
               end
          else None
      end
  end.

(** [int(s)] on a string: white space around, a sign, decimal digits;
    [None] is [ValueError]. *)
Definition of_str (s : string) : option Z :=
  match Py.strip s with
  | String "+" rest => digits 0 false rest
  | String "-" rest => option_map Z.opp (digits 0 false rest)
  | t => digits 0 false t
  end.

End PyInt.

Definition page_size : Z := 100.

Definition page_url (server start_date end_date : string) (cursor : Z) : string :=
  "https://api.biorxiv.org/details/" +:+ server
  +:+ "/" +:+ start_date +:+ "/" +:+ end_date +:+ "/" +:+ pretty cursor.

Definition page_request (server start_date end_date : string) (cursor : Z) : request :=
  {| url := page_url server start_date end_date cursor; params := [] |}.

(** The dictionary appended for a relevant item, lines 174-182. *)
Definition preprint_record (server : string) (item : item_json) : paper :=
  {| pmid := EmptyString;
     title := default EmptyString (i_title item);
     authors := default EmptyString (i_authors item);
     journal := server +:+ " (preprint)";
     year := Py.prefix_of 4 (default EmptyString (i_date item));
     doi := default EmptyString (i_doi item);
     source := server |}.

Definition item_relevant (item : item_json) : bool :=
  _is_setbp1_relevant (default EmptyString (i_title item))
                      (default EmptyString (i_abstract item)).

(** The loop [for item in collection]: the records of the relevant items. *)
Definition relevant_records (server : string) (coll : list item_json) : list paper :=
  map (preprint_record server) (List.filter item_relevant coll).

(** Lines 185-186.  A message that holds a total is not empty, and one that
    holds none gives 0 whether it is empty or not, so the [total] field alone
    decides. *)
Definition page_total (data : details_json) : outcome Z :=
  match default [{| total := None |}] (messages data) with
  | [] => Raised IndexError
  | total_msg :: _ =>
      match total total_msg with
      | None => Ok 0
      | Some (TotalInt n) => Ok n
      | Some (TotalStr s) =>
          match PyInt.of_str s with
          | Some n => Ok n
          | None => Raised ValueError
          end
      end
  end.

(** The [while True] loop, one turn for each reply; the replies still to come
    bound it.  An exception after the [try] block is not caught. *)
Fixpoint preprint_loop (server start_date end_date : string)
    (replies : list (option details_json)) (cursor : Z) (papers : list paper)
    (lg : list event)
  : outcome (list paper) * list (option details_json) * list event :=
  let lg1 := lg ++ [Get (page_request server start_date end_date cursor)] in
  match replies with
  | [] => (Ok papers, [], lg1)
  | None :: rest => (Ok papers, rest, lg1)
  | Some data :: rest =>
      match default [] (collection data) with
      | [] => (Ok papers, rest, lg1)
      | (_ :: _) as coll =>
          let papers1 := papers ++ relevant_records server coll in
          match page_total data with
          | Raised e => (Raised e, rest, lg1)
          | Ok total_count =>
              let cursor1 := cursor + page_size in
              if cursor1 >=? total_count then (Ok papers1, rest, lg1)
              else preprint_loop server start_date end_date rest cursor1 papers1
                     (lg1 ++ [Sleep 300])
          end
      end
  end.

(** [_search_preprint_server(server)] *)
Definition _search_preprint_server (self : searcher) (server : string) (w : world)
  : outcome (list paper) * world :=
  let '(r, replies, lg) :=
    preprint_loop server (start_date self) (end_date self)
                  (details_replies w) 0 [] (log w) in
  (r, {| esearch_replies := esearch_replies w; esummary_replies := esummary_replies w;
         details_replies := replies; log := lg; files := files w |}).

Definition search_biorxiv (self : searcher) (w : world) : outcome (list paper) * world :=
  _search_preprint_server self "biorxiv" w.

Definition search_medrxiv (self : searcher) (w : world) : outcome (list paper) * world :=
  _search_preprint_server self "medrxiv" w.

(* ================================================================== *)
(** * Writing the reports *)
(* ================================================================== *)

(** [create_excel_report(papers, filename)] *)
Definition create_excel_report (papers : list paper) (filename : string) (w : world)
  : world :=
  save_file filename (Xlsx (excel_workbook papers)) w.

(** [create_pdf_report(papers, categories, filename, counts)] *)
Definition create_pdf_report (self : searcher) (papers : list paper)
    (cats : categories) (filename : string)
    (pubmed_count biorxiv_count medrxiv_count : nat) (w : world) : world :=
  save_file filename
    (Pdf (pdf_story (start_date self) (end_date self) papers cats
                    pubmed_count biorxiv_count medrxiv_count)) w.

(* ================================================================== *)
(** * Orchestrator *)
(* ================================================================== *)

Definition excel_filename (self : searcher) : string :=
  output_dir self +:+ "/" +:+ Py.replace_char "-" EmptyString (end_date self)
  +:+ "-SETBP1-Literature-Data.xlsx".

Definition pdf_filename (self : searcher) : string :=
  output_dir self +:+ "/" +:+ Py.replace_char "-" EmptyString (end_date self)
  +:+ "-SETBP1-Literature-Summary.pdf".

(** Lines 571-575: the search, then the metadata when there are identifiers;
    the papers go to [self.all_papers]. *)
Definition pubmed_stage (self : searcher) (w : world)
  : list paper * searcher * world :=
  let '(pmids, w1) := search_pubmed self w in
  match pmids with
  | [] => ([], self, w1)
  | _ :: _ =>
      let '(pubmed_papers, w2) := get_pubmed_metadata self pmids 100 w1 in
      (pubmed_papers, with_all_papers self (all_papers self ++ pubmed_papers), w2)
  end.

(** [run()]: the result, the object as [run] leaves it, the world. *)
Definition run (self : searcher) (w : world) : outcome unit * searcher * world :=
  let '(pubmed_papers, self1, w1) := pubmed_stage self w in
  match search_biorxiv self1 w1 with
  | (Raised e, w2) => (Raised e, self1, w2)
  | (Ok biorxiv_papers, w2) =>
      match search_medrxiv self1 w2 with
      | (Raised e, w3) => (Raised e, self1, w3)
      | (Ok medrxiv_papers, w3) =>
          let self2 :=
            with_all_papers self1
              ((all_papers self1 ++ biorxiv_papers) ++ medrxiv_papers) in
          match all_papers self2 with
          | [] => (Ok tt, self2, w3)
          | _ :: _ =>
              let cats := categorize_papers (all_papers self2) in
              let w4 := create_excel_report (all_papers self2) (excel_filename self2) w3 in
              let w5 :=
                create_pdf_report self2 (all_papers self2) cats (pdf_filename self2)
                  (length pubmed_papers) (length biorxiv_papers)
                  (length medrxiv_papers) w4 in
              (Ok tt, self2, w5)
          end
      end
  end.

(* ================================================================== *)
(** * Command line and front end *)
(* ================================================================== *)

(** What the program uses of Python's [datetime]. *)
Class Datetime (datetime : Type) := {
  (** [datetime.strptime(s, '%Y-%m-%d')]; [None] is [ValueError] *)
  strptime : string -> option datetime;
  (** [d.strftime('%Y-%m-%d')] *)
  strftime : datetime -> string;
  (** [d - timedelta(days=n)]; [None] is [OverflowError] *)
  minus_days : datetime -> Z -> option datetime;
  (** [d1 <= d2] *)
  date_le : datetime -> datetime -> bool
}.

(** The parsed command line: [--start], [--end], [--output] with its default
    applied. *)
Record arguments := Arguments_ {
  arg_start : option string;
  arg_end : option string;
  arg_output : string
}.

(** [not args.x]: the option was not given, or given empty. *)
Definition not_given (o : option string) : bool :=
  match o with
  | None => true
  | Some s => negb (Py.truthy s)
  end.

Section CommandLine.

Context {datetime : Type} `{Datetime datetime}.

(** The clock: what [datetime.now()] returns during the run. *)
Variable now : datetime.

(** [main()]: the value it returns, the status of the process.  An exception
    that leaves it is [Raised]. *)
Definition main (args : arguments) (w : world) : outcome Z * world :=
  let end_ :=
    if not_given (arg_end args) then strftime now
    else default EmptyString (arg_end args) in
  let start_result :=
    if not_given (arg_start args)
    then match strptime end_ with
         | None => Raised ValueError
         | Some end_date =>
             match minus_days end_date 7 with
             | None => Raised OverflowError
             | Some start_date => Ok (strftime start_date)
             end
         end
    else Ok (default EmptyString (arg_start args)) in
  match start_result with
  | Raised e => (Raised e, w)
  | Ok start =>
      match strptime start, strptime end_ with
      | Some _, Some _ =>
          let searcher := init start end_ (arg_output args) in
          match run searcher w with
          | (Raised e, _, w1) => (Raised e, w1)
          | (Ok _, _, w1) => (Ok 0, w1)
          end
      | _, _ => (Ok 1, w)
      end
  end.

(** [date_valid] of the front end, [start_date <= end_date] on two dates:
    the comparison that [main] does not make. *)
Definition date_valid (start_date end_date : datetime) : bool :=
  date_le start_date end_date.

End CommandLine.

(* ================================================================== *)
(** * A calendar: the [datetime] operations on proleptic Gregorian dates *)
(* ================================================================== *)

Module Calendar.

Record date := Date { dyear : Z; dmonth : Z; dday : Z }.

Definition is_leap (y : Z) : bool :=
  ((y mod 4 =? 0) && negb (y mod 100 =? 0)) || (y mod 400 =? 0).

Definition days_in_month (y m : Z) : Z :=
  if m =? 2 then (if is_leap y then 29 else 28)
  else if (m =? 4) || (m =? 6) || (m =? 9) || (m =? 11) then 30
  else 31.

(** What the [date] constructor accepts. *)
Definition valid (y m d : Z) : bool :=
  (1 <=? y) && (y <=? 9999) && (1 <=? m) && (m <=? 12)
  && (1 <=? d) && (d <=? days_in_month y m).

Definition digit (c : ascii) : option Z := PyInt.digit_value c.

(** The directive [%Y]: four digits. *)
Definition read_year (s : list ascii) : option (Z * list ascii) :=
  match s with
  | a :: b :: c :: d :: rest =>
      match digit a, digit b, digit c, digit d with
      | Some a, Some b, Some c, Some d => Some (1000 * a + 100 * b + 10 * c + d, rest)
      | _, _, _, _ => None
      end
  | _ => None
  end.

Definition dash : ascii := "-".

(** The directive [%m] and the dash after it: [1[0-2]], [0[1-9]] or [[1-9]],
    the first that lets the dash follow. *)
Definition read_month_dash (s : list ascii) : option (Z * list ascii) :=
  let two :=
    match s with
    | a :: b :: c :: rest =>
        match digit a, digit b with
        | Some a, Some b =>
            if Ascii.eqb c dash
               && (((a =? 1) && (b <=? 2)) || ((a =? 0) && (1 <=? b)))
            then Some (10 * a + b, rest) else None
        | _, _ => None
        end
    | _ => None
    end in
  match two with
  | Some r => Some r
  | None =>
      match s with
      | a :: c :: rest =>
          match digit a with
          | Some a =>
              if Ascii.eqb c dash && (1 <=? a) then Some (a, rest) else None
          | None => None
          end
      | _ => None
      end
  end.

(** The directive [%d]: [3[01]], [[12]\d], [0[1-9]], [[1-9]] or a space and
    [[1-9]], the first that matches; what is left must be empty. *)
Definition read_day (s : list ascii) : option (Z * list ascii) :=
  let two :=
    match s with
    | a :: b :: rest =>
        match digit a, digit b with
        | Some a, Some b =>
            if ((a =? 3) && (b <=? 1)) || (a =? 1) || (a =? 2)
               || ((a =? 0) && (1 <=? b))
            then Some (10 * a + b, rest) else None
        | None, Some b =>
            if Ascii.eqb a " " && (1 <=? b) then Some (b, rest) else None
        | _, _ => None
        end
    | _ => None
    end in
  match two with
  | Some r => Some r
  | None =>
      match s with
      | a :: rest =>
          match digit a with
          | Some a => if 1 <=? a then Some (a, rest) else None
          | None => None
          end
      | _ => None
      end
  end.

Definition parse (s : string) : option date :=
  match read_year (list_ascii_of_string s) with
  | Some (y, c :: s1) =>
      if Ascii.eqb c dash then
        match read_month_dash s1 with
        | Some (m, s2) =>
            match read_day s2 with
            | Some (d, []) => if valid y m d then Some (Date y m d) else None
            | _ => None
            end
        | None => None
        end
      else None
  | _ => None
  end.

Definition pad (width : nat) (n : Z) : string :=
  let s := pretty n in
  string_of_list_ascii (repeat "0"%char (width - String.length s)) +:+ s.

(** Zero padded, the year to four digits. *)
Definition format (d : date) : string :=
  pad 4 (dyear d) +:+ "-" +:+ pad 2 (dmonth d) +:+ "-" +:+ pad 2 (dday d).

(** Days since 1970-01-01, and back. *)
Definition to_days (d : date) : Z :=
  let y := if dmonth d <=? 2 then dyear d - 1 else dyear d in
  let era := y / 400 in
  let yoe := y - era * 400 in
  let mp := if 2 <? dmonth d then dmonth d - 3 else dmonth d + 9 in
  let doy := (153 * mp + 2) / 5 + dday d - 1 in
  let doe := yoe * 365 + yoe / 4 - yoe / 100 + doy in
  era * 146097 + doe - 719468.

Definition of_days (z : Z) : date :=
  let z := z + 719468 in
  let era := z / 146097 in
  let doe := z - era * 146097 in
  let yoe := (doe - doe / 1460 + doe / 36524 - doe / 146096) / 365 in
  let doy := doe - (365 * yoe + yoe / 4 - yoe / 100) in
  let mp := (5 * doy + 2) / 153 in
  let d := doy - (153 * mp + 2) / 5 + 1 in
  let m := if mp <? 10 then mp + 3 else mp - 9 in
  let y := yoe + era * 400 in
  Date (if m <=? 2 then y + 1 else y) m d.

Definition minus (d : date) (n : Z) : option date :=
  let r := of_days (to_days d - n) in
  if valid (dyear r) (dmonth r) (dday r) then Some r else None.

Definition le (a b : date) : bool := to_days a <=? to_days b.

#[global] Instance calendar : Datetime date :=
  {| strptime := parse; strftime := format; minus_days := minus; date_le := le |}.

End Calendar.

(* ================================================================== *)
(** * Notions the statements use *)
(* ================================================================== *)





(** The citation paragraph of a highlighted record with both identifiers:
    the text names the PMID, the target is the DOI resolver. *)
Definition mixed_citation (p : paper) : flowable :=
  Paragraph ("<b>Citation:</b> " +:+ authors p +:+ ". "
             +:+ "<link href=" +:+ String "034" ("https://doi.org/" +:+ doi p)
             +:+ String "034" " color=" +:+ String "034" "blue"
             +:+ String "034" ">" +:+ "PMID: " +:+ pmid p +:+ "</link>")
            citation_style.

(** An article as [esummary] describes one, with the given title and
    [pubdate]. *)
Definition sample_article (t pubdate : string) : article_json :=
  {| a_title := Some t;
     a_authors := Some [ {| name := Some "Smith J"%string |} ];
     a_source := Some "Nature"%string;
     a_pubdate := Some pubdate;
     a_articleids := Some [ {| idtype := Some "doi"%string;
                               id_value := Some "10.1000/x"%string |} ] |}.

(** A reply to [esummary] in which article 1 is complete and article 2 has a
    [pubdate] of one space: its year cannot be read. *)
Definition blank_pubdate_reply : esummary_json :=
  {| result := Some (<["1"%string := sample_article "First" "2026 Jan"]>
                       (<["2"%string := sample_article "Second" " "]> ∅)) |}.

(** The record of article 1 of that reply. *)
Definition first_record : paper :=
  {| pmid := "1"; title := "First"; authors := "Smith J"; journal := "Nature";
     year := "2026"; doi := "10.1000/x"; source := "PubMed" |}.

(** A network that answers nothing: every request fails. *)
Definition quiet_world : world :=
  {| esearch_replies := []; esummary_replies := []; details_replies := [];
     log := []; files := [] |}.

(** A network that answers the three attempts of a batch with that reply. *)
Definition blank_pubdate_world : world :=
  {| esearch_replies := [];
     esummary_replies := [Some blank_pubdate_reply; Some blank_pubdate_reply;
                          Some blank_pubdate_reply];
     details_replies := []; log := []; files := [] |}.

(** The records the loop over a batch appends when no article raises. *)
Definition batch_records (res : gmap string article_json) (batch : list string)
  : list paper :=
  omap (fun pmid =>
          match res !! pmid with
          | Some article =>
              match article_metadata pmid article with
              | Ok m => Some m
              | Raised _ => None
              end
          | None => None
          end) batch.

(** A page after which the loop goes on: it has items, and its total lies
    beyond the next cursor. *)
Definition continues (cursor : Z) (data : details_json) : Prop :=
  default [] (collection data) ≠ []
  /\ exists total_count, page_total data = Ok total_count
                         /\ cursor + page_size < total_count.

(** Pages fetched one after the other from [cursor] on, all of them going on. *)
Fixpoint all_continue (cursor : Z) (pages : list details_json) : Prop :=
  match pages with
  | [] => True
  | data :: rest => continues cursor data /\ all_continue (cursor + page_size) rest
  end.

(** The events of [n] pages fetched from [cursor] on and of the request after
    them: one request for each cursor, a sleep of 0.3 s between two. *)
Fixpoint page_events (server start_date end_date : string) (cursor : Z) (n : nat)
  : list event :=
  match n with
  | O => [Get (page_request server start_date end_date cursor)]
  | S n' =>
      Get (page_request server start_date end_date cursor) :: Sleep 300
        :: page_events server start_date end_date (cursor + page_size) n'
  end.

(** The relevant records of a list of pages, page after page. *)
Definition pages_records (server : string) (pages : list details_json) : list paper :=
  flat_map (fun data => relevant_records server (default [] (collection data))) pages.

(** A page with one relevant and one irrelevant item, of 150 in all. *)
Definition sample_page : details_json :=
  {| collection :=
       Some [ {| i_title := Some "SETBP1 variants in a cohort"%string;
                 i_abstract := Some "We report."%string;
                 i_authors := Some "Doe, J.; Roe, R."%string;
                 i_doi := Some "10.1101/2026.02.03.000001"%string;
                 i_date := Some "2026-02-03"%string |};
              {| i_title := Some "Unrelated"%string; i_abstract := None;
                 i_authors := None; i_doi := None; i_date := None |} ];
     messages := Some [ {| total := Some (TotalStr "150") |} ] |}.

(** A network whose second page fails. *)
Definition sample_page_world : world :=
  {| esearch_replies := []; esummary_replies := [];
     details_replies := [Some sample_page; None; Some sample_page];
     log := []; files := [] |}.

(** [w'] comes after [w] with no file saved in between. *)
Definition extends_quietly (w w' : world) : Prop :=
  files w' = files w
  /\ exists l, log w' = log w ++ l /\ Forall (fun e => is_save e = false) l.

(** A start date a week after the end date. *)
Definition reversed_args : arguments :=
  {| arg_start := Some "2026-02-08"%string; arg_end := Some "2026-02-01"%string;
     arg_output := "out"%string |}.

(** A date given on the command line. *)
Definition given (o : option string) (s : string) : Prop :=
  o = Some s /\ s ≠ EmptyString.

(** The record of the relevant item of [sample_page] on bioRxiv. *)
Definition sample_record : paper :=
  {| pmid := EmptyString; title := "SETBP1 variants in a cohort";
     authors := "Doe, J.; Roe, R."; journal := "biorxiv (preprint)";
     year := "2026"; doi := "10.1101/2026.02.03.000001"; source := "biorxiv" |}.

(** A page that decodes, with the items of [sample_page], whose total is not
    a number. *)
Definition unread_total_page : details_json :=
  {| collection := collection sample_page;
     messages := Some [ {| total := Some (TotalStr "many") |} ] |}.

(** A network where PubMed finds nothing and the second page of the first
    preprint server is that page. *)
Definition unread_total_world : world :=
  {| esearch_replies := [Some {| esearchresult := Some {| idlist := Some [] |} |}];
     esummary_replies := [];
     details_replies := [Some sample_page; Some unread_total_page; Some sample_page];
     log := []; files := [] |}.

(** [sub] occurs in [text]: the text is some prefix, [sub], some suffix. *)
Definition occurs_in (sub text : string) : Prop :=
  exists pre post, text = pre +:+ sub +:+ post.



(** ** Words *)

(** The characters of a string. *)
Definition chars (s : string) : list ascii := list_ascii_of_string s.

(** A string without white space. *)
Definition spaceless (s : string) : Prop :=
  forall c, In c (chars s) -> Py.isspace c = false.

(** A word: not empty, and without white space. *)
Definition is_word (s : string) : Prop := s ≠ EmptyString /\ spaceless s.

(** The number of words of a text, as [len(text.split())]. *)
Definition word_count (s : string) : nat := length (Py.split s).

(** ** Batches *)

(** The batches [get_pubmed_metadata] cuts a list of identifiers into. *)
Definition batches (pmids : list string) (batch_size : nat) : list (list string) :=
  map (fun i => take batch_size (drop i pmids)) (range_step (length pmids) batch_size).

(** The requests of a list of batches, batch number [j] asked [ks !! j] times. *)
Definition batch_requests (self : searcher) (ks : list nat) (bs : list (list string))
  : list event :=
  concat (zip_with (fun k b => replicate k (Get (esummary_request self b))) ks bs).

(** A reply from which the loop over a batch runs through. *)
Definition clean_reply (data : esummary_json) (batch : list string) : Prop :=
  (collect (default ∅ (result data)) batch []).1 = Ok tt.

(** The records of a run in which every batch is answered at once by a clean
    reply, and its events. *)
Definition clean_records (datas : list esummary_json) (bs : list (list string))
  : list paper :=
  concat (zip_with (fun d b => batch_records (default ∅ (result d)) b) datas bs).

Definition clean_events (self : searcher) (bs : list (list string)) : list event :=
  flat_map (fun b => [Get (esummary_request self b); Sleep 500]) bs.

(** ** Pages *)


(* ================================================================== *)
(** * The search of the front end *)
(* ================================================================== *)

Module PyPath.

(** [s.startswith("/")] and [s.endswith("/")] *)
Definition starts_with_slash (s : string) : bool :=
  match s with
  | String c _ => Ascii.eqb c "/"
  | EmptyString => false
  end.

Fixpoint ends_with_slash (s : string) : bool :=
  match s with
  | EmptyString => false
  | String c EmptyString => Ascii.eqb c "/"
  | String _ rest => ends_with_slash rest
  end.

(** [os.path.join(a, b)] on POSIX *)
Definition join (a b : string) : string :=
  if starts_with_slash b then b
  else if Py.is_empty a || ends_with_slash a then a +:+ b
  else a +:+ "/" +:+ b.

(** [os.path.basename(p)]: what follows the last slash; [cur] is what was read
    since the last one. *)
Fixpoint basename_from (cur : string) (p : string) : string :=
  match p with
  | EmptyString => cur
  | String c rest =>
      if Ascii.eqb c "/" then basename_from EmptyString rest
      else basename_from (Py.snoc cur c) rest
  end.

Definition basename (p : string) : string := basename_from EmptyString p.

End PyPath.

(** The file at a path: what was saved there last.  [os.path.exists(path)]
    is whether there is one. *)
Definition read_file (path : string) (w : world) : option document :=
  snd <$> last (List.filter (fun f => String.eqb (fst f) path) (files w)).

(** [sum(1 for p in papers if p.get("source") == name)] *)
Definition count_source (name : string) (papers : list paper) : nat :=
  length (List.filter (fun p => String.eqb (source p) name) papers).

(** The dictionary [run_search] returns, the captured output apart. *)
Record search_results := SearchResults {
  excel_bytes : option document;
  excel_name : option string;
  pdf_bytes : option document;
  pdf_name : option string;
  total_papers : nat;
  count_pubmed : nat;
  count_biorxiv : nat;
  count_medrxiv : nat;
  category_counts : list (string * nat)
}.

(** [run_search(start_date_str, end_date_str)]; [output_dir] is the directory
    [mkdtemp] made.  An exception of [run] is not caught. *)
Definition run_search (output_dir : string) (start_date_str end_date_str : string)
    (w : world) : outcome search_results * world :=
  let searcher := init start_date_str end_date_str output_dir in
  match run searcher w with
  | (Raised e, _, w1) => (Raised e, w1)
  | (Ok _, searcher1, w1) =>
      let end_date_formatted := Py.replace_char "-" EmptyString end_date_str in
      let excel_path :=
        PyPath.join output_dir (end_date_formatted +:+ "-SETBP1-Literature-Data.xlsx") in
      let pdf_path :=
        PyPath.join output_dir (end_date_formatted +:+ "-SETBP1-Literature-Summary.pdf") in
      let excel := read_file excel_path w1 in
      let pdf := read_file pdf_path w1 in
      let cats := categorize_papers (all_papers searcher1) in
      (Ok {| excel_bytes := excel;
             excel_name := match excel with
                           | Some _ => Some (PyPath.basename excel_path)
                           | None => None
                           end;
             pdf_bytes := pdf;
             pdf_name := match pdf with
                         | Some _ => Some (PyPath.basename pdf_path)
                         | None => None
                         end;
             total_papers := length (all_papers searcher1);
             count_pubmed := count_source "PubMed" (all_papers searcher1);
             count_biorxiv := count_source "biorxiv" (all_papers searcher1);
             count_medrxiv := count_source "medrxiv" (all_papers searcher1);
             category_counts :=
               [ ("mechanism", length (mechanism cats));
                 ("therapeutics", length (therapeutics cats));
                 ("models", length (models cats));
                 ("dataset", length (dataset cats));
                 ("other", length (other cats)) ]%string |}, w1)
  end.

(** The three sources a paper of a run can have. *)
Definition known_source (p : paper) : Prop :=
  source p = "PubMed"%string \/ source p = "biorxiv"%string
  \/ source p = "medrxiv"%string.

(** ** Layout of the document *)

Definition is_page_break (f : flowable) : bool :=
  match f with PageBreak => true | _ => false end.

(** The numbered title of paper number [i] (from 0) in the complete list. *)
Definition numbered_title (i : nat) (p : paper) : flowable :=
  Paragraph ("<b>" +:+ pretty (S i) +:+ ". " +:+ title p +:+ "</b>") body_style.

(** The flowables of the story before the notable findings. *)
Definition story_header (start_date end_date : string) (papers : list paper)
    (pubmed_count biorxiv_count medrxiv_count : nat) : list flowable :=
  [ Paragraph "SETBP1 LITERATURE REVIEW" title_style;
    Paragraph ("Search Period: " +:+ start_date +:+ " to " +:+ end_date) normal_style;
    Spacer 1 20;
    Paragraph "SEARCH SUMMARY" heading1_style;
    Table [ ["PubMed Articles:"; pretty pubmed_count];
            ["bioRxiv Preprints:"; pretty biorxiv_count];
            ["medRxiv Preprints:"; pretty medrxiv_count];
            ["Total Papers:"; pretty (length papers)];
            ["Date Range:"; start_date +:+ " to " +:+ end_date] ]%string;
    Spacer 1 20;
    Paragraph "NOTABLE FINDINGS" heading1_style;
    Spacer 1 10 ].
(* ================================================================== *)
(** * Properties of the summarizer *)
(* ================================================================== *)

Lemma slice_to_nonneg {A} (n : Z) (l : list A) :
  0 <= n -> Py.slice_to n l = take (Z.to_nat n) l.
Proof.
  intros Hn. unfold Py.slice_to.
  destruct (0 <=? n) eqn:E; [reflexivity | apply Z.leb_gt in E; lia].
Qed.

(** C2 (counterexample): on the authors of the claim the function does not
    give the last word of the last author. *)
Lemma extract_last_author_name_not_smith :
  extract_last_author_name "Jane Doe, John Q. Smith" <> "Smith"%string.
Proof. vm_compute. discriminate. Qed.

(** C2 (amended): the authors string [Jane Doe, John Q. Smith] gives [John],
    the first word of the entry after the last comma, and the empty authors
    string gives the empty string. *)
Theorem extract_last_author_name_examples :
  extract_last_author_name "Jane Doe, John Q. Smith" = "John"%string
  /\ extract_last_author_name EmptyString = EmptyString.
Proof. split; vm_compute; reflexivity. Qed.




(* ================================================================== *)
(** * Properties of the classifier *)
(* ================================================================== *)

Section Classifier.

Implicit Types (p : paper) (cats : categories).

Lemma filter_cons_if {A} (f : A -> bool) (x : A) (l : list A) :
  List.filter f (x :: l) = if f x then x :: List.filter f l else List.filter f l.
Proof. reflexivity. Qed.

(** The loop keeps what it was given and files each paper under the one
    test of the chain it passes. *)
Lemma categorize_fold (papers : list paper) cats :
  let r := fold_left categorize_step papers cats in
  mechanism r = mechanism cats ++ List.filter is_mechanism papers
  /\ therapeutics r = therapeutics cats ++ List.filter is_therapeutics papers
  /\ models r = models cats ++ List.filter is_models papers
  /\ dataset r = dataset cats ++ List.filter is_dataset papers
  /\ other r = other cats ++ List.filter is_other papers.
Proof.
  revert cats. induction papers as [| p ps IH]; intros cats.
  - cbn [fold_left List.filter]. rewrite !app_nil_r. tauto.
  - cbn [fold_left]. cbv zeta in IH.
    destruct (IH (categorize_step cats p)) as (H1 & H2 & H3 & H4 & H5).
    rewrite H1, H2, H3, H4, H5. clear IH H1 H2 H3 H4 H5.
    rewrite !filter_cons_if.
    unfold categorize_step, is_mechanism, is_therapeutics, is_models, is_dataset,
      is_other. cbv zeta.
    change (any_in ?t (Py.lower (title p))) with (hits t p).
    destruct (hits mechanism_terms p), (hits therapeutics_terms p),
      (hits models_terms p), (hits dataset_terms p);
      cbn [negb andb mechanism therapeutics models dataset other];
      rewrite <- ?app_assoc; cbn [app]; tauto.
Qed.

(** The five lists together are as long as the input. *)
Lemma categories_cover (papers : list paper) :
  (length (List.filter is_mechanism papers)
   + length (List.filter is_therapeutics papers)
   + length (List.filter is_models papers)
   + length (List.filter is_dataset papers)
   + length (List.filter is_other papers))%nat
  = length papers.
Proof.
  induction papers as [| p ps IH]; [reflexivity |].
  rewrite !filter_cons_if.
  unfold is_mechanism, is_therapeutics, is_models, is_dataset, is_other in *.
  destruct (hits mechanism_terms p), (hits therapeutics_terms p),
    (hits models_terms p), (hits dataset_terms p);
    cbn [negb andb length]; lia.
Qed.


End Classifier.


(* ================================================================== *)
(** * Properties of the tabular renderer *)
(* ================================================================== *)

Section Worksheet.

Implicit Types (ws : gmap (nat * nat) cell) (p : paper) (r c idx : nat).












End Worksheet.

Section Report.

Implicit Types (ws : gmap (nat * nat) cell) (p : paper) (r c : nat).

Lemma truthy_true (s : string) : s ≠ EmptyString -> Py.truthy s = true.
Proof. destruct s; [congruence | reflexivity]. Qed.




End Report.


(* ================================================================== *)
(** * Properties of the citation label *)
(* ================================================================== *)

Section Label.

Implicit Types (p : paper) (cats : categories).

Lemma paper_link_doi p :
  doi p ≠ EmptyString -> _paper_link p = "https://doi.org/" +:+ doi p.
Proof. intros Hd. unfold _paper_link. by rewrite (truthy_true _ Hd). Qed.

Lemma highlight_in_section heading cap spaced (ps : list paper) p :
  In p (Py.slice_to cap ps) ->
  forall f, In f (highlight p) -> In f (highlight_section heading cap spaced ps).
Proof.
  intros Hin f Hf. unfold highlight_section.
  destruct ps as [| q qs].
  - unfold Py.slice_to in Hin. destruct (0 <=? cap); rewrite take_nil in Hin; destruct Hin.
  - right. apply in_or_app. left. apply in_flat_map. exists p. split; assumption.
Qed.

End Label.

(** C10: for a record with a PMID and a DOI, both not empty, the label is the
    markup [<link href=Qhttps://doi.org/<doi>Q color=QblueQ>PMID: <pmid></link>],
    [Q] being the double quote (character 34): it shows the text
    [PMID: <pmid>] inside a link whose target is [https://doi.org/<doi>];
    this is the label of its citation line wherever
    the record is among the papers highlighted in the notable findings (the
    first 3, 4, 4 and 3 of the four categories). *)
Theorem paper_link_label_pmid_text_doi_target (p : paper) :
  pmid p ≠ EmptyString -> doi p ≠ EmptyString ->
  _paper_link_label p
  = "<link href=" +:+ String "034" ("https://doi.org/" +:+ doi p)
    +:+ String "034" " color=" +:+ String "034" "blue" +:+ String "034" ">"
    +:+ "PMID: " +:+ pmid p +:+ "</link>"
  /\ (forall cats,
        In p (Py.slice_to 3 (mechanism cats))
        \/ In p (Py.slice_to 4 (therapeutics cats))
        \/ In p (Py.slice_to 4 (models cats))
        \/ In p (Py.slice_to 3 (dataset cats)) ->
        In (mixed_citation p) (notable_findings cats)).
Proof.
  intros Hp Hd.
  assert (Hlabel : _paper_link_label p
                   = "<link href=" +:+ String "034" ("https://doi.org/" +:+ doi p)
                     +:+ String "034" " color=" +:+ String "034" "blue"
                     +:+ String "034" ">" +:+ "PMID: " +:+ pmid p +:+ "</link>").
  { unfold _paper_link_label. cbv zeta. rewrite (paper_link_doi p Hd).
    rewrite (truthy_true ("https://doi.org/" +:+ doi p)) by discriminate.
    rewrite (truthy_true _ Hp). reflexivity. }
  split; [exact Hlabel |].
  intros cats Hin.
  assert (Hcit : In (mixed_citation p) (highlight p)).
  { unfold highlight, mixed_citation. rewrite Hlabel. right. left. reflexivity. }
  unfold notable_findings. rewrite !in_app_iff.
  destruct Hin as [H | [H | [H | H]]].
  - left. eapply highlight_in_section; eassumption.
  - right. left. eapply highlight_in_section; eassumption.
  - right. right. left. eapply highlight_in_section; eassumption.
  - right. right. right. eapply highlight_in_section; eassumption.
Qed.

Lemma paper_link_label_witness :
  let p := Paper "41234567" "T" "Smith J" "Nature" "2026" "10.1000/x" "PubMed" in
  pmid p <> EmptyString /\ doi p <> EmptyString
  /\ _paper_link_label p
     = "<link href=" +:+ String "034" "https://doi.org/10.1000/x"
       +:+ String "034" " color=" +:+ String "034" "blue" +:+ String "034" ">"
       +:+ "PMID: 41234567</link>".
Proof.
  intros p. split; [discriminate |]. split; [discriminate |].
  apply (paper_link_label_pmid_text_doi_target p); discriminate.
Defined.

(* ================================================================== *)
(** * Properties of the structured-metadata adapter *)
(* ================================================================== *)

Section Metadata.

Variable self : searcher.

Implicit Types (batch pmids : list string) (all : list paper) (w : world).

Lemma log_record_event e w : log (record_event e w) = log w ++ [e].
Proof. reflexivity. Qed.

Lemma get_esummary_log req w :
  log (get_esummary req w).2 = log w ++ [Get req].
Proof. unfold get_esummary. cbn. destruct (esummary_replies w); reflexivity. Qed.

Lemma attempt_batch_log batch all w :
  log (attempt_batch self batch all w).2 = log w ++ [Get (esummary_request self batch)].
Proof.
  unfold attempt_batch.
  pose proof (get_esummary_log (esummary_request self batch) w) as Hlog.
  destruct (get_esummary _ w) as [reply w1]. cbn in Hlog.
  destruct reply as [d |]; [| exact Hlog].
  destruct (collect _ batch all). exact Hlog.
Qed.

(** What the loop over a batch has appended stays; it only appends. *)
Lemma collect_extends res batch all :
  exists l, (collect res batch all).2 = all ++ l.
Proof.
  revert all. induction batch as [| pmid rest IH]; intros all; cbn [collect].
  - exists []. by rewrite app_nil_r.
  - destruct (res !! pmid) as [article |]; [| apply IH].
    destruct (article_metadata pmid article) as [m | e].
    + destruct (IH (all ++ [m])) as [l Hl]. exists (m :: l).
      rewrite Hl, <- app_assoc. reflexivity.
    + exists []. by rewrite app_nil_r.
Qed.

Lemma attempt_batch_extends batch all w :
  exists l, (attempt_batch self batch all w).1.2 = all ++ l.
Proof.
  unfold attempt_batch. destruct (get_esummary _ w) as [[d |] w1].
  - destruct (collect_extends (default ∅ (result d)) batch all) as [l Hl].
    destruct (collect _ batch all) as [r all1]. exists l. exact Hl.
  - exists []. by rewrite app_nil_r.
Qed.

Lemma retry_loop_extends attempts batch all w :
  exists l, (retry_loop self attempts batch all w).1 = all ++ l.
Proof.
  revert all w. induction attempts as [| a later IH]; intros all w; cbn [retry_loop].
  - exists []. by rewrite app_nil_r.
  - destruct (attempt_batch_extends batch all w) as [l1 Hl1].
    destruct (attempt_batch self batch all w) as [[r all1] w1]. cbn in Hl1. subst all1.
    destruct r as [[] | e].
    + exists l1. reflexivity.
    + destruct (a <? max_retries - 1)%nat.
      * destruct (IH (all ++ l1) (sleep ((Z.of_nat a + 1) * 2 * 1000) w1)) as [l2 Hl2].
        exists (l1 ++ l2). rewrite Hl2, app_assoc. reflexivity.
      * destruct (IH (all ++ l1) w1) as [l2 Hl2].
        exists (l1 ++ l2). rewrite Hl2, app_assoc. reflexivity.
Qed.

Lemma batch_loop_extends offsets pmids bs all w :
  exists l, (batch_loop self offsets pmids bs all w).1 = all ++ l.
Proof.
  revert all w. induction offsets as [| i rest IH]; intros all w; cbn [batch_loop].
  - exists []. by rewrite app_nil_r.
  - destruct (retry_loop_extends (seq 0 max_retries) (take bs (drop i pmids)) all w)
      as [l1 Hl1].
    destruct (retry_loop self _ _ all w) as [all1 w1]. cbn in Hl1. subst all1.
    destruct (IH (all ++ l1) (sleep 500 w1)) as [l2 Hl2].
    exists (l1 ++ l2). rewrite Hl2, app_assoc. reflexivity.
Qed.

(** The fuel of [range_step] is enough: more of it changes nothing. *)
Lemma range_from_fuel (fuel fuel' i stop step : nat) :
  (0 < step)%nat -> (stop <= i + fuel)%nat -> (stop <= i + fuel')%nat ->
  range_from fuel i stop step = range_from fuel' i stop step.
Proof.
  intros Hstep. revert fuel' i.
  induction fuel as [| fuel IH]; intros fuel' i Hfuel Hfuel'.
  - destruct fuel' as [| fuel']; [reflexivity |]. cbn [range_from].
    destruct (i <? stop)%nat eqn:E; [apply Nat.ltb_lt in E; lia | reflexivity].
  - cbn [range_from]. destruct (i <? stop)%nat eqn:E.
    + apply Nat.ltb_lt in E. destruct fuel' as [| fuel']; [lia |].
      cbn [range_from]. apply Nat.ltb_lt in E. rewrite E. f_equal.
      apply IH; lia.
    + destruct fuel' as [| fuel']; [reflexivity |]. cbn [range_from].
      rewrite E. reflexivity.
Qed.

(** [range_step] lists the multiples of the step below the bound. *)
Lemma range_step_spec (stop step k : nat) :
  (0 < step)%nat -> In k (range_step stop step) <-> (k < stop)%nat /\ (step | k)%nat.
Proof.
  intros Hstep. unfold range_step.
  assert (Hgen : forall fuel i, (stop <= i + fuel)%nat -> (step | i)%nat ->
            In k (range_from fuel i stop step)
            <-> (i <= k)%nat /\ (k < stop)%nat /\ (step | k)%nat).
  { induction fuel as [| fuel IH]; intros i Hfuel Hdiv; cbn [range_from].
    - split; [intros [] | intros (H1 & H2 & _); lia].
    - destruct (i <? stop)%nat eqn:E.
      + apply Nat.ltb_lt in E. cbn [In]. rewrite IH; [| lia | by apply Nat.divide_add_r].
        split.
        * intros [<- | (H1 & H2 & H3)]; [split; [lia | split; assumption] |].
          split; [lia | split; assumption].
        * intros (H1 & H2 & H3).
          destruct (decide (i = k)) as [-> | Hne]; [left; reflexivity | right].
          split; [| split; assumption].
          destruct Hdiv as [a ->], H3 as [b ->].
          assert (a < b)%nat by nia. nia.
      + apply Nat.ltb_ge in E. split; [intros [] | intros (H1 & H2 & _); lia]. }
  rewrite Hgen; [| lia | apply Nat.divide_0_r].
  split; [intros (_ & H2 & H3); split; assumption | intros [H2 H3]; split; [lia |];
          split; assumption].
Qed.

End Metadata.

(** C7 (the code at the failing input): the one batch [1, 2] is answered three
    times by a reply whose article 2 has a blank [pubdate].  Each attempt
    raises after the record of article 1 was appended; the three attempts are
    made, 2 and 4 seconds apart, the batch is given up, and the list returned
    holds the record of article 1 three times. *)
Theorem get_pubmed_metadata_failed_batch_keeps_records :
  let self := init "2026-02-01" "2026-02-08" "out" in
  let batch := ["1"; "2"]%string in
  (forall all, collect (default ∅ (result blank_pubdate_reply)) batch all
               = (Raised IndexError, all ++ [first_record]))
  /\ (get_pubmed_metadata self batch 100 blank_pubdate_world).1
     = [first_record; first_record; first_record]
  /\ log (get_pubmed_metadata self batch 100 blank_pubdate_world).2
     = [ Get (esummary_request self batch); Sleep 2000;
         Get (esummary_request self batch); Sleep 4000;
         Get (esummary_request self batch); Sleep 500 ].
Proof.
  intros self batch. split; [| split].
  - intros all. vm_compute. reflexivity.
  - vm_compute. reflexivity.
  - vm_compute. reflexivity.
Qed.

Section Retry.

Variable self : searcher.

Implicit Types (batch pmids : list string) (all : list paper) (w : world).

Lemma collect_ok res batch all all' :
  collect res batch all = (Ok tt, all') -> all' = all ++ batch_records res batch.
Proof.
  revert all. induction batch as [| pmid rest IH]; intros all; cbn [collect].
  - intros [= <-]. unfold batch_records. cbn. by rewrite app_nil_r.
  - unfold batch_records. cbn [omap list_omap]. fold (batch_records res rest).
    destruct (res !! pmid) as [article |]; [| apply IH].
    destruct (article_metadata pmid article) as [m | e]; [| discriminate].
    intros Hc. rewrite (IH _ Hc), <- app_assoc. reflexivity.
Qed.

Lemma attempt_batch_none batch all w :
  head (esummary_replies w) = None \/ head (esummary_replies w) = Some None ->
  exists w1, attempt_batch self batch all w = (Raised RequestError, all, w1)
             /\ esummary_replies w1 = tail (esummary_replies w).
Proof.
  intros Hhead. unfold attempt_batch, get_esummary, record_event.
  cbn [esummary_replies]. destruct (esummary_replies w) as [| [d |] rest]; cbn in *.
  - eexists. split; reflexivity.
  - destruct Hhead; discriminate.
  - eexists. split; reflexivity.
Qed.

Lemma retry_loop_cons a (later : list nat) batch all w :
  retry_loop self (a :: later) batch all w
  = match attempt_batch self batch all w with
    | (Ok _, all1, w1) => (all1, w1)
    | (Raised _, all1, w1) =>
        if (a <? max_retries - 1)%nat
        then retry_loop self later batch all1
               (sleep ((Z.of_nat a + 1) * 2 * 1000) w1)
        else retry_loop self later batch all1 w1
    end.
Proof. reflexivity. Qed.

(** Attempts whose requests all fail leave the list as it was. *)
Lemma retry_all_fail (attempts : list nat) batch all w :
  (forall r, In r (take (length attempts) (esummary_replies w)) -> r = None) ->
  (retry_loop self attempts batch all w).1 = all.
Proof.
  revert w. induction attempts as [| a later IH]; intros w Hfail; [reflexivity |].
  rewrite retry_loop_cons.
  destruct (attempt_batch_none batch all w) as (w1 & -> & Hq1).
  { destruct (esummary_replies w) as [| r q]; [left; reflexivity |].
    right. cbn. f_equal. apply Hfail. left. reflexivity. }
  assert (Hlater : forall r, In r (take (length later) (esummary_replies w1)) -> r = None).
  { intros r Hr. apply Hfail. rewrite Hq1 in Hr.
    destruct (esummary_replies w) as [| r0 q].
    - cbn [tail] in Hr. rewrite take_nil in Hr. destruct Hr.
    - right. exact Hr. }
  destruct (a <? max_retries - 1)%nat; apply IH; exact Hlater.
Qed.

End Retry.

(** X3, the retry bound and the backoff: a batch is requested once, twice or
    three times, never more, with a sleep of 2 seconds after the first failed
    attempt and of 4 seconds after the second. *)
Theorem retry_loop_attempts (self : searcher) (batch : list string)
    (all : list paper) (w : world) :
  let lg := log (retry_loop self (seq 0 max_retries) batch all w).2 in
  let g := Get (esummary_request self batch) in
  lg = log w ++ [g]
  \/ lg = log w ++ [g; Sleep 2000; g]
  \/ lg = log w ++ [g; Sleep 2000; g; Sleep 4000; g].
Proof.
  intros lg g. subst lg. change (seq 0 max_retries) with [0; 1; 2]%nat.
  rewrite retry_loop_cons.
  pose proof (attempt_batch_log self batch all w) as H1.
  destruct (attempt_batch self batch all w) as [[[[] | e1] all1] w1]; cbn in H1.
  { left. exact H1. }
  change (0 <? max_retries - 1)%nat with true. cbv iota.
  change ((Z.of_nat 0 + 1) * 2 * 1000) with 2000.
  rewrite retry_loop_cons.
  pose proof (attempt_batch_log self batch all1 (sleep 2000 w1)) as H2.
  destruct (attempt_batch self batch all1 (sleep 2000 w1)) as [[[[] | e2] all2] w2];
    cbn in H2; rewrite H1, <- !app_assoc in H2; cbn [app] in H2.
  { right. left. exact H2. }
  change (1 <? max_retries - 1)%nat with true. cbv iota.
  change ((Z.of_nat 1 + 1) * 2 * 1000) with 4000.
  rewrite retry_loop_cons.
  pose proof (attempt_batch_log self batch all2 (sleep 4000 w2)) as H3.
  destruct (attempt_batch self batch all2 (sleep 4000 w2)) as [[[[] | e3] all3] w3];
    cbn in H3; rewrite H2, <- !app_assoc in H3; cbn [app] in H3; right; right; exact H3.
Qed.

(** X4, transport failures: when the replies to the three attempts are all
    failures of the request itself (or there is no reply at all), the batch
    adds no record. *)
Theorem transport_failures_add_nothing (self : searcher) (batch : list string)
    (all : list paper) (w : world) :
  (forall r, In r (take 3 (esummary_replies w)) -> r = None) ->
  (retry_loop self (seq 0 max_retries) batch all w).1 = all.
Proof.
  intros Hfail. apply retry_all_fail. exact Hfail.
Qed.

Lemma transport_failures_add_nothing_witness :
  (retry_loop (init "2026-02-01" "2026-02-08" "out") (seq 0 max_retries)
     ["1"; "2"]%string [first_record]
     {| esearch_replies := []; esummary_replies := [None; None; None];
        details_replies := []; log := []; files := [] |}).1
  = [first_record].
Proof.
  apply transport_failures_add_nothing.
  cbn. intros r [<- | [<- | [<- | []]]]; reflexivity.
Defined.

(** X5, the batches that were fetched: when the reply to the first attempt of
    a batch decodes and its loop runs through, the records of the batch are in
    the list returned, after whatever was collected before, whatever happens
    to the batches after it. *)
Theorem fetched_batch_is_kept (self : searcher) (i : nat) (rest : list nat)
    (pmids : list string) (bs : nat) (all : list paper) (w : world)
    (data : esummary_json) :
  head (esummary_replies w) = Some (Some data) ->
  (collect (default ∅ (result data)) (take bs (drop i pmids)) all).1 = Ok tt ->
  exists l,
    (batch_loop self (i :: rest) pmids bs all w).1
    = (all ++ batch_records (default ∅ (result data)) (take bs (drop i pmids))) ++ l.
Proof.
  intros Hhead Hok. cbn [batch_loop].
  change (seq 0 max_retries) with [0; 1; 2]%nat. rewrite retry_loop_cons.
  unfold attempt_batch, get_esummary, record_event. cbn [esummary_replies].
  destruct (esummary_replies w) as [| r q]; [discriminate |].
  cbn in Hhead. injection Hhead as ->.
  destruct (collect _ (take bs (drop i pmids)) all) as [r all1] eqn:Hc.
  cbn in Hok. subst r. apply collect_ok in Hc. subst all1.
  apply batch_loop_extends.
Qed.

Lemma fetched_batch_is_kept_witness :
  let self := init "2026-02-01" "2026-02-08" "out" in
  let data := {| result := Some {[ "1"%string := sample_article "First" "2026 Jan" ]} |} in
  let w := {| esearch_replies := []; esummary_replies := [Some data];
              details_replies := []; log := []; files := [] |} in
  let pmids := ["2"; "1"]%string in
  head (esummary_replies w) = Some (Some data)
  /\ (collect (default ∅ (result data)) (take 1 (drop 1 pmids)) []).1 = Ok tt
  /\ exists l,
       (batch_loop self [1%nat] pmids 1 [] w).1
       = ([] ++ batch_records (default ∅ (result data)) (take 1 (drop 1 pmids))) ++ l.
Proof.
  intros self data w pmids.
  assert (H1 : head (esummary_replies w) = Some (Some data)) by reflexivity.
  assert (H2 : (collect (default ∅ (result data)) (take 1 (drop 1 pmids)) []).1 = Ok tt)
    by (vm_compute; reflexivity).
  split; [exact H1 |]. split; [exact H2 |].
  exact (fetched_batch_is_kept self 1 [] pmids 1 [] w data H1 H2).
Defined.

(* ================================================================== *)
(** * Properties of the preprint adapters *)
(* ================================================================== *)

Section Preprint.

Variables server start_date end_date : string.

Implicit Types (pages : list details_json) (q : list (option details_json))
  (papers : list paper) (lg : list event).

Lemma preprint_loop_stops_at_failure pages q cursor papers lg :
  all_continue cursor pages ->
  head q = None \/ head q = Some None ->
  preprint_loop server start_date end_date (map Some pages ++ q) cursor papers lg
  = (Ok (papers ++ pages_records server pages), tail q,
     lg ++ page_events server start_date end_date cursor (length pages)).
Proof.
  revert cursor papers lg.
  induction pages as [| data rest IH]; intros cursor papers lg Hcont Hq.
  - cbn [map app length page_events pages_records flat_map].
    rewrite app_nil_r.
    destruct q as [| [d |] q']; cbn in Hq |- *.
    + reflexivity.
    + destruct Hq; discriminate.
    + reflexivity.
  - destruct Hcont as [[Hitems (total_count & Htotal & Hmore)] Hrest].
    cbn [map app length page_events pages_records flat_map preprint_loop].
    destruct (default [] (collection data)) as [| item items] eqn:Hcoll;
      [congruence |].
    rewrite Htotal.
    destruct (cursor + page_size >=? total_count) eqn:Hcmp.
    { apply Z.geb_le in Hcmp. lia. }
    rewrite (IH (cursor + page_size) _ _ Hrest Hq).
    fold (pages_records server rest).
    rewrite <- !app_assoc. reflexivity.
Qed.

Lemma page_events_requests cursor (n : nat) :
  List.filter is_get (page_events server start_date end_date cursor n)
  = map (fun j => Get (page_request server start_date end_date
                         (cursor + page_size * Z.of_nat j)))
        (seq 0 (S n)).
Proof.
  revert cursor. induction n as [| n IH]; intros cursor.
  - cbn. rewrite Z.mul_0_r, Z.add_0_r. reflexivity.
  - cbn [page_events List.filter is_get]. rewrite IH.
    change (seq 0 (S (S n))) with (0%nat :: seq 1 (S n)).
    rewrite <- seq_shift, map_cons, map_map.
    rewrite Z.mul_0_r, Z.add_0_r. f_equal.
    apply map_ext. intros j. do 2 f_equal. lia.
Qed.

End Preprint.

(** C8: a page that decodes but whose total cannot be read is a failure the
    adapter does not survive.  On a network whose first bioRxiv page holds one
    relevant item and announces 150, a failed request for the second page
    gives the record of the first page; a second page whose total is not a
    number makes the adapter raise [ValueError] after its two requests, the
    record of the first page is not returned, and [run] raises too: its log
    ends with that second request, so the other preprint server is never
    asked, and no file is written. *)
Theorem search_preprint_server_unread_total_loses_records :
  let self := init "2026-02-01" "2026-02-08" "out" in
  let page cursor :=
    Get {| url := "https://api.biorxiv.org/details/biorxiv/2026-02-01/2026-02-08/"
                  +:+ cursor;
           params := [] |} in
  (_search_preprint_server self "biorxiv" sample_page_world).1 = Ok [sample_record]
  /\ _search_preprint_server self "biorxiv" unread_total_world
     = (Raised ValueError,
        {| esearch_replies := esearch_replies unread_total_world;
           esummary_replies := [];
           details_replies := [Some sample_page];
           log := [page "0"; Sleep 300; page "100"];
           files := [] |})
  /\ run self unread_total_world
     = (Raised ValueError, self,
        {| esearch_replies := []; esummary_replies := [];
           details_replies := [Some sample_page];
           log := [Get (esearch_request self); page "0"; Sleep 300; page "100"];
           files := [] |}).
Proof.
  intros self page. repeat split; vm_compute; reflexivity.
Qed.

(** X24: when the request after some pages fails inside the [try] block (the
    request, its status or the decoding raised), and the pages before it all
    went on, the adapter returns, without raising, the records of the items
    of those pages that pass the relevance filter, page after page.  It made
    one request for each cursor 0, 100, ..., the last being the failed one,
    and none after it: the replies behind the failure are left for the next
    provider, and nothing else of the world changed. *)
Theorem search_preprint_server_failed_request_keeps_records (self : searcher)
    (server : string) (w : world) (pages : list details_json)
    (rest : list (option details_json)) :
  details_replies w = map Some pages ++ None :: rest ->
  all_continue 0 pages ->
  let events :=
    page_events server (start_date self) (end_date self) 0 (length pages) in
  _search_preprint_server self server w
  = (Ok (flat_map (fun data =>
                     map (preprint_record server)
                         (List.filter item_relevant (default [] (collection data))))
                  pages),
     {| esearch_replies := esearch_replies w; esummary_replies := esummary_replies w;
        details_replies := rest; log := log w ++ events; files := files w |})
  /\ List.filter is_get events
     = map (fun j => Get (page_request server (start_date self) (end_date self)
                            (page_size * Z.of_nat j)))
           (seq 0 (S (length pages))).
Proof.
  intros Hreplies Hcont events. split.
  - unfold _search_preprint_server. rewrite Hreplies.
    rewrite (preprint_loop_stops_at_failure server (start_date self) (end_date self)
               pages (None :: rest) 0 [] (log w) Hcont) by (right; reflexivity).
    reflexivity.
  - unfold events. rewrite page_events_requests. apply map_ext. intros j.
    rewrite Z.add_0_l. reflexivity.
Qed.

Lemma search_preprint_server_failed_request_keeps_records_witness :
  let self := init "2026-02-01" "2026-02-08" "out" in
  details_replies sample_page_world = map Some [sample_page] ++ None :: [Some sample_page]
  /\ all_continue 0 [sample_page]
  /\ _search_preprint_server self "biorxiv" sample_page_world
     = (Ok ([sample_record] ++ []),
        {| esearch_replies := []; esummary_replies := [];
           details_replies := [Some sample_page];
           log := [] ++ page_events "biorxiv" "2026-02-01" "2026-02-08" 0 1;
           files := [] |}).
Proof.
  intros self.
  assert (H1 : details_replies sample_page_world
               = map Some [sample_page] ++ None :: [Some sample_page]) by reflexivity.
  assert (H2 : all_continue 0 [sample_page]).
  { cbn [all_continue]. split; [| exact I]. split; [discriminate |].
    exists 150. split; [vm_compute; reflexivity | reflexivity]. }
  split; [exact H1 |]. split; [exact H2 |].
  exact (proj1 (search_preprint_server_failed_request_keeps_records self "biorxiv"
                  sample_page_world [sample_page] [Some sample_page] H1 H2)).
Defined.

(* ================================================================== *)
(** * Properties of the orchestrator *)
(* ================================================================== *)

Section Frame.

Variable self : searcher.

Implicit Types (w : world) (batch pmids : list string) (all : list paper).

Lemma extends_quietly_refl w : extends_quietly w w.
Proof. split; [reflexivity |]. exists []. by rewrite app_nil_r. Qed.

Lemma extends_quietly_trans w1 w2 w3 :
  extends_quietly w1 w2 -> extends_quietly w2 w3 -> extends_quietly w1 w3.
Proof.
  intros (Hf1 & l1 & Hl1 & Hs1) (Hf2 & l2 & Hl2 & Hs2). split; [congruence |].
  exists (l1 ++ l2). rewrite Hl2, Hl1, app_assoc. split; [reflexivity |].
  apply Forall_app. split; assumption.
Qed.

Lemma record_event_quiet e w :
  is_save e = false -> extends_quietly w (record_event e w).
Proof.
  intros He. split; [reflexivity |]. exists [e]. split; [reflexivity |].
  constructor; [exact He | constructor].
Qed.

Lemma sleep_quiet ms w : extends_quietly w (sleep ms w).
Proof. apply record_event_quiet. reflexivity. Qed.

Lemma get_esearch_quiet req w : extends_quietly w (get_esearch req w).2.
Proof.
  unfold get_esearch. cbn [esearch_replies record_event].
  destruct (esearch_replies w); apply (record_event_quiet (Get req) w); reflexivity.
Qed.

Lemma get_esummary_quiet req w : extends_quietly w (get_esummary req w).2.
Proof.
  unfold get_esummary. cbn [esummary_replies record_event].
  destruct (esummary_replies w); apply (record_event_quiet (Get req) w); reflexivity.
Qed.

Lemma attempt_batch_quiet batch all w :
  extends_quietly w (attempt_batch self batch all w).2.
Proof.
  unfold attempt_batch.
  pose proof (get_esummary_quiet (esummary_request self batch) w) as Hq.
  destruct (get_esummary _ w) as [[d |] w1]; cbn in Hq |- *; [| exact Hq].
  destruct (collect _ batch all). exact Hq.
Qed.

Lemma retry_loop_quiet (attempts : list nat) batch all w :
  extends_quietly w (retry_loop self attempts batch all w).2.
Proof.
  revert all w. induction attempts as [| a later IH]; intros all w.
  - apply extends_quietly_refl.
  - rewrite retry_loop_cons.
    pose proof (attempt_batch_quiet batch all w) as Hq.
    destruct (attempt_batch self batch all w) as [[[[] | e] all1] w1]; cbn in Hq;
      cbv beta iota.
    + exact Hq.
    + destruct (a <? max_retries - 1)%nat.
      * eapply extends_quietly_trans; [exact Hq |].
        eapply extends_quietly_trans; [apply sleep_quiet | apply IH].
      * eapply extends_quietly_trans; [exact Hq | apply IH].
Qed.

Lemma batch_loop_quiet (offsets : list nat) pmids bs all w :
  extends_quietly w (batch_loop self offsets pmids bs all w).2.
Proof.
  revert all w. induction offsets as [| i rest IH]; intros all w; cbn [batch_loop].
  - apply extends_quietly_refl.
  - pose proof (retry_loop_quiet (seq 0 max_retries) (take bs (drop i pmids)) all w)
      as Hq.
    destruct (retry_loop self _ _ all w) as [all1 w1]. cbn in Hq.
    eapply extends_quietly_trans; [exact Hq |].
    eapply extends_quietly_trans; [apply sleep_quiet | apply IH].
Qed.

(** The first thing the structured-metadata stage does is the search
    request. *)
Lemma pubmed_stage_quiet w :
  extends_quietly w (pubmed_stage self w).2
  /\ exists l, log (pubmed_stage self w).2
               = log w ++ Get (esearch_request self) :: l.
Proof.
  unfold pubmed_stage, search_pubmed.
  pose proof (get_esearch_quiet (esearch_request self) w) as Hq.
  assert (Hlog : log (get_esearch (esearch_request self) w).2
                 = log w ++ [Get (esearch_request self)]).
  { unfold get_esearch. cbn [esearch_replies record_event].
    destruct (esearch_replies w); reflexivity. }
  destruct (get_esearch _ w) as [reply w1]. cbn in Hq, Hlog.
  assert (Hmeta : forall pmids,
            extends_quietly w (get_pubmed_metadata self pmids 100 w1).2
            /\ exists l, log (get_pubmed_metadata self pmids 100 w1).2
                         = log w ++ Get (esearch_request self) :: l).
  { intros pmids. unfold get_pubmed_metadata.
    pose proof (batch_loop_quiet (range_step (length pmids) (Pos.to_nat 100)) pmids
                  (Pos.to_nat 100) [] w1) as Hb.
    split; [eapply extends_quietly_trans; eassumption |].
    destruct Hb as (_ & l & Hl & _). exists l.
    rewrite Hl, Hlog, <- app_assoc. reflexivity. }
  assert (Hstay : extends_quietly w w1
                  /\ exists l, log w1 = log w ++ Get (esearch_request self) :: l).
  { split; [exact Hq |]. exists []. exact Hlog. }
  destruct reply as [data |]; [| exact Hstay].
  destruct (default [] (idlist (default {| idlist := None |} (esearchresult data))))
    as [| pmid pmids]; [exact Hstay |].
  specialize (Hmeta (pmid :: pmids)).
  destruct (get_pubmed_metadata self (pmid :: pmids) 100 w1). exact Hmeta.
Qed.

Lemma preprint_loop_quiet server (s e : string) (q : list (option details_json))
    cursor (papers : list paper) (lg : list event) :
  exists l, (preprint_loop server s e q cursor papers lg).2 = lg ++ l
            /\ Forall (fun ev => is_save ev = false) l.
Proof.
  revert cursor papers lg. induction q as [| [data |] rest IH]; intros cursor papers lg.
  - cbn. eexists. split; [reflexivity |]. repeat constructor.
  - cbn [preprint_loop].
    destruct (default [] (collection data)) as [| item items].
    { cbn. eexists. split; [reflexivity |]. repeat constructor. }
    destruct (page_total data) as [total_count | ex].
    + destruct (cursor + page_size >=? total_count).
      * cbn. eexists. split; [reflexivity |]. repeat constructor.
      * destruct (IH (cursor + page_size) (papers ++ relevant_records server (item :: items))
                    ((lg ++ [Get (page_request server s e cursor)]) ++ [Sleep 300]))
          as (l & Hl & Hs).
        rewrite Hl. eexists. rewrite <- !app_assoc. split; [reflexivity |].
        repeat constructor. exact Hs.
    + cbn. eexists. split; [reflexivity |]. repeat constructor.
  - cbn. eexists. split; [reflexivity |]. repeat constructor.
Qed.

Lemma search_preprint_server_quiet server w :
  extends_quietly w (_search_preprint_server self server w).2.
Proof.
  unfold _search_preprint_server.
  destruct (preprint_loop_quiet server (start_date self) (end_date self)
              (details_replies w) 0 [] (log w)) as (l & Hl & Hs).
  destruct (preprint_loop _ _ _ _ _ _ _) as [[r replies] lg]. cbn in Hl |- *.
  split; [reflexivity |]. exists l. split; assumption.
Qed.

End Frame.

Section Run.

Implicit Types (self : searcher) (w : world).

Lemma quiet_saves w w' :
  extends_quietly w w' ->
  files w' = files w /\ List.filter is_save (log w') = List.filter is_save (log w).
Proof.
  intros (Hf & l & Hl & Hs). split; [exact Hf |].
  rewrite Hl, List.filter_app.
  assert (Hnil : List.filter is_save l = []).
  { clear Hl. induction Hs as [| ev l Hev _ IH]; [reflexivity |].
    cbn. rewrite Hev. exact IH. }
  rewrite Hnil, app_nil_r. reflexivity.
Qed.

Lemma pubmed_stage_papers self w :
  all_papers (pubmed_stage self w).1.2
  = all_papers self ++ (pubmed_stage self w).1.1.
Proof.
  unfold pubmed_stage. destruct (search_pubmed self w) as [[| pmid pmids] w1].
  - cbn. by rewrite app_nil_r.
  - destruct (get_pubmed_metadata self (pmid :: pmids) 100 w1). reflexivity.
Qed.

(** Whatever [run] does, it starts with the search request. *)
Lemma run_requests_first self w :
  exists l, log (run self w).2 = log w ++ Get (esearch_request self) :: l.
Proof.
  unfold run.
  destruct (pubmed_stage_quiet self w) as (_ & l0 & Hl0).
  destruct (pubmed_stage self w) as [[pubmed_papers self1] w1]. cbn in Hl0.
  unfold search_biorxiv, search_medrxiv.
  destruct (search_preprint_server_quiet self1 "biorxiv" w1) as (_ & l1 & Hl1 & _).
  destruct (_search_preprint_server self1 "biorxiv" w1) as [[bio | ex] w2];
    cbn in Hl1 |- *.
  2: { exists (l0 ++ l1). rewrite Hl1, Hl0, <- app_assoc. reflexivity. }
  destruct (search_preprint_server_quiet self1 "medrxiv" w2) as (_ & l2 & Hl2 & _).
  destruct (_search_preprint_server self1 "medrxiv" w2) as [[med | ex] w3];
    cbn in Hl2 |- *.
  2: { exists (l0 ++ l1 ++ l2). rewrite Hl2, Hl1, Hl0, <- !app_assoc. reflexivity. }
  cbn [all_papers with_all_papers].
  destruct ((all_papers self1 ++ bio) ++ med).
  - exists (l0 ++ l1 ++ l2). cbn. rewrite Hl2, Hl1, Hl0, <- !app_assoc. reflexivity.
  - eexists. cbn. rewrite Hl2, Hl1, Hl0, <- !app_assoc. cbn [app]. reflexivity.
Qed.

End Run.

(** C9: a fresh searcher whose three adapters come back empty (the
    structured-metadata stage, then bioRxiv, then medRxiv) runs to the end
    without raising; it holds no paper afterwards, so the total it reports is
    zero; and no file was saved: the files are those of before, with no save
    among the events. *)
Theorem run_with_empty_results (start_date end_date output_dir : string)
    (w w1 w2 w3 : world) (self1 : searcher) :
  pubmed_stage (init start_date end_date output_dir) w = ([], self1, w1) ->
  search_biorxiv self1 w1 = (Ok [], w2) ->
  search_medrxiv self1 w2 = (Ok [], w3) ->
  exists self',
    run (init start_date end_date output_dir) w = (Ok tt, self', w3)
    /\ all_papers self' = []
    /\ length (all_papers self') = 0%nat
    /\ files w3 = files w
    /\ List.filter is_save (log w3) = List.filter is_save (log w).
Proof.
  intros Hpub Hbio Hmed.
  pose proof (pubmed_stage_papers (init start_date end_date output_dir) w) as Hpapers.
  pose proof (pubmed_stage_quiet (init start_date end_date output_dir) w) as [Hq1 _].
  rewrite Hpub in Hpapers, Hq1. cbn in Hpapers, Hq1.
  pose proof (search_preprint_server_quiet self1 "biorxiv" w1) as Hq2.
  pose proof (search_preprint_server_quiet self1 "medrxiv" w2) as Hq3.
  unfold search_biorxiv in Hbio. unfold search_medrxiv in Hmed.
  rewrite Hbio in Hq2. rewrite Hmed in Hq3. cbn in Hq2, Hq3.
  destruct (quiet_saves w w3) as [Hfiles Hsaves].
  { eapply extends_quietly_trans; [exact Hq1 |].
    eapply extends_quietly_trans; eassumption. }
  exists (with_all_papers self1 []).
  split; [| repeat split; assumption].
  unfold run. rewrite Hpub. unfold search_biorxiv, search_medrxiv.
  rewrite Hbio, Hmed. rewrite Hpapers. reflexivity.
Qed.

Lemma run_with_empty_results_witness :
  exists self',
    run (init "2026-02-01" "2026-02-08" "out") quiet_world
    = (Ok tt, self',
       {| esearch_replies := []; esummary_replies := []; details_replies := [];
          log := [ Get (esearch_request (init "2026-02-01" "2026-02-08" "out"));
                   Get (page_request "biorxiv" "2026-02-01" "2026-02-08" 0);
                   Get (page_request "medrxiv" "2026-02-01" "2026-02-08" 0) ];
          files := [] |})
    /\ all_papers self' = [].
Proof.
  destruct (run_with_empty_results "2026-02-01" "2026-02-08" "out" quiet_world
              {| esearch_replies := []; esummary_replies := []; details_replies := [];
                 log := [ Get (esearch_request (init "2026-02-01" "2026-02-08" "out")) ];
                 files := [] |}
              {| esearch_replies := []; esummary_replies := []; details_replies := [];
                 log := [ Get (esearch_request (init "2026-02-01" "2026-02-08" "out"));
                          Get (page_request "biorxiv" "2026-02-01" "2026-02-08" 0) ];
                 files := [] |}
              {| esearch_replies := []; esummary_replies := []; details_replies := [];
                 log := [ Get (esearch_request (init "2026-02-01" "2026-02-08" "out"));
                          Get (page_request "biorxiv" "2026-02-01" "2026-02-08" 0);
                          Get (page_request "medrxiv" "2026-02-01" "2026-02-08" 0) ];
                 files := [] |}
              (init "2026-02-01" "2026-02-08" "out"))
    as (self' & Hrun & Hnone & _); [reflexivity | reflexivity | reflexivity |].
  exists self'. split; assumption.
Defined.

(* ================================================================== *)
(** * Properties of the command line *)
(* ================================================================== *)

Section Validation.

Implicit Types (o : option string) (s : string).

Lemma given_not_given o s : given o s -> not_given o = false.
Proof. intros [-> Hs]. cbn. destruct s; [congruence | reflexivity]. Qed.

Lemma given_default o s : given o s -> default EmptyString o = s.
Proof. intros [-> _]. reflexivity. Qed.

End Validation.

(** X1, the format check: when a date given on the command line does not
    parse, [main] ends before anything is requested (the world is as it was)
    and not with status 0: it returns 1, or the [ValueError] of the default
    start date leaves it. *)
Theorem main_rejects_malformed {datetime : Type} `{Datetime datetime}
    (now : datetime) (args : arguments) (w : world) (s : string) :
  (given (arg_start args) s \/ given (arg_end args) s) ->
  strptime s = None ->
  (main now args w).2 = w
  /\ ((main now args w).1 = Ok 1 \/ (main now args w).1 = Raised ValueError).
Proof.
  intros Hgiven Hbad. unfold main.
  destruct Hgiven as [Hs | He].
  - rewrite (given_not_given _ _ Hs), (given_default _ _ Hs). rewrite Hbad.
    split; [reflexivity | left; reflexivity].
  - rewrite (given_not_given _ _ He), (given_default _ _ He). rewrite Hbad.
    destruct (not_given (arg_start args)).
    + split; [reflexivity | right; reflexivity].
    + destruct (strptime (default EmptyString (arg_start args)));
        (split; [reflexivity | left; reflexivity]).
Qed.

Lemma main_rejects_malformed_witness :
  let args := {| arg_start := Some "2026-02-01"%string;
                 arg_end := Some "02/08/2026"%string; arg_output := "out"%string |} in
  (given (arg_start args) "02/08/2026" \/ given (arg_end args) "02/08/2026")
  /\ Calendar.parse "02/08/2026" = None
  /\ (main (Calendar.Date 2026 2 8) args quiet_world).2 = quiet_world.
Proof.
  intros args.
  assert (H1 : given (arg_start args) "02/08/2026" \/ given (arg_end args) "02/08/2026")
    by (right; split; [reflexivity | discriminate]).
  assert (H2 : Calendar.parse "02/08/2026" = None) by reflexivity.
  split; [exact H1 |]. split; [exact H2 |].
  exact (proj1 (main_rejects_malformed (Calendar.Date 2026 2 8) args quiet_world
                  "02/08/2026" H1 H2)).
Defined.


(** C1 (the code at the failing input): [--start 2026-02-08 --end 2026-02-01]
    are two well-formed dates, the first after the second.  [main] does not
    reject them: on any world it goes on to [run], whose first act is the
    search request, and it does not return 1; on a network that answers
    nothing it makes its three requests and returns 0. *)
Theorem main_runs_on_reversed_dates :
  (Calendar.parse "2026-02-08" = Some (Calendar.Date 2026 2 8)
   /\ Calendar.parse "2026-02-01" = Some (Calendar.Date 2026 2 1)
   /\ Calendar.le (Calendar.Date 2026 2 8) (Calendar.Date 2026 2 1) = false)
  /\ (forall (now : Calendar.date) w,
        (main now reversed_args w).1 ≠ Ok 1
        /\ exists l,
             log (main now reversed_args w).2
             = log w ++ Get (esearch_request (init "2026-02-08" "2026-02-01" "out")) :: l)
  /\ (forall now : Calendar.date,
        main now reversed_args quiet_world
        = (Ok 0,
           {| esearch_replies := []; esummary_replies := []; details_replies := [];
              log := [ Get (esearch_request (init "2026-02-08" "2026-02-01" "out"));
                       Get (page_request "biorxiv" "2026-02-08" "2026-02-01" 0);
                       Get (page_request "medrxiv" "2026-02-08" "2026-02-01" 0) ];
              files := [] |})).
Proof.
  split; [repeat split; reflexivity |]. split.
  - intros now w.
    assert (Hmain : main now reversed_args w
                    = match run (init "2026-02-08" "2026-02-01" "out") w with
                      | (Raised e, _, w1) => (Raised e, w1)
                      | (Ok _, _, w1) => (Ok 0, w1)
                      end) by reflexivity.
    rewrite Hmain.
    destruct (run_requests_first (init "2026-02-08" "2026-02-01" "out") w) as [l Hl].
    destruct (run _ w) as [[[[] | e] self'] w1]; cbn in Hl |- *.
    + split; [discriminate | exists l; exact Hl].
    + split; [discriminate | exists l; exact Hl].
  - intros now. vm_compute. reflexivity.
Qed.


(* ================================================================== *)
(** * Further properties *)
(* ================================================================== *)

Lemma lower_app (s t : string) : Py.lower (s +:+ t) = Py.lower s +:+ Py.lower t.
Proof.
  induction s as [| c s IH]; [reflexivity |].
  change (String c s +:+ t) with (String c (s +:+ t)).
  cbn [Py.lower]. rewrite IH. reflexivity.
Qed.

Lemma prefix_occurs (sub s : string) :
  String.prefix sub s = true <-> exists post, s = sub +:+ post.
Proof.
  revert s. induction sub as [| c sub IH]; intros s.
  - split; [intros _; exists s; reflexivity | intros _; destruct s; reflexivity].
  - destruct s as [| d s].
    + split; [discriminate | intros [post Hpost]; discriminate].
    + cbn [String.prefix]. destruct (Ascii.ascii_dec c d) as [-> | Hne].
      * rewrite IH. split; intros [post Hpost]; exists post.
        -- rewrite Hpost. reflexivity.
        -- change (String d sub +:+ post) with (String d (sub +:+ post)) in Hpost.
           congruence.
      * split; [discriminate |]. intros [post Hpost].
        change (String c sub +:+ post) with (String c (sub +:+ post)) in Hpost.
        congruence.
Qed.

(** [sub in s] holds exactly when [sub] occurs in [s]. *)
Lemma contains_occurs (sub s : string) :
  Py.contains sub s = true <-> occurs_in sub s.
Proof.
  induction s as [| d s IH].
  - cbn [Py.contains]. rewrite orb_false_r, prefix_occurs. split.
    + intros [post Hpost]. exists EmptyString, post. exact Hpost.
    + intros (pre & post & H). destruct pre as [| c pre].
      * exists post. exact H.
      * change (String c pre +:+ sub +:+ post)
          with (String c (pre +:+ sub +:+ post)) in H.
        discriminate.
  - cbn [Py.contains]. rewrite orb_true_iff, prefix_occurs, IH. split.
    + intros [[post Hpost] | (pre & post & H)].
      * exists EmptyString, post. exact Hpost.
      * exists (String d pre), post. rewrite H. reflexivity.
    + intros (pre & post & H). destruct pre as [| c pre].
      * left. exists post. exact H.
      * right. exists pre, post.
        change (String c pre +:+ sub +:+ post)
          with (String c (pre +:+ sub +:+ post)) in H.
        congruence.
Qed.

(** X7: the relevance filter does not see case: titles and abstracts that agree
    once lower-cased are judged alike.  A pair matches exactly when one of
    the five keywords occurs in the lower-cased text of the title, a space
    and the abstract: a pair holding none of them does not match.  So
    [SETBP1 variant] and [setbp1 VARIANT] both match, and
    [Kidney cysts], [Renal disease in mice] does not. *)
Theorem is_setbp1_relevant_case_insensitive (t1 a1 t2 a2 : string) :
  Py.lower t1 = Py.lower t2 -> Py.lower a1 = Py.lower a2 ->
  _is_setbp1_relevant t1 a1 = _is_setbp1_relevant t2 a2
  /\ (_is_setbp1_relevant t1 a1 = true
      <-> exists kw,
            In kw ["setbp1"; "schinzel-giedion"; "schinzel giedion"; "sgd";
                   "set binding protein 1"]%string
            /\ occurs_in kw (Py.lower (t1 +:+ " " +:+ a1)))
  /\ _is_setbp1_relevant "SETBP1 variant" EmptyString = true
  /\ _is_setbp1_relevant "setbp1 VARIANT" EmptyString = true
  /\ _is_setbp1_relevant "Kidney cysts" "Renal disease in mice" = false.
Proof.
  intros Ht Ha.
  split; [| split; [| repeat split; vm_compute; reflexivity]].
  - unfold _is_setbp1_relevant. cbv zeta. rewrite !lower_app, Ht, Ha. reflexivity.
  - unfold _is_setbp1_relevant, any_in. cbv zeta.
    rewrite existsb_exists.
    split; intros (kw & Hin & Hc); exists kw; (split; [exact Hin |]);
      apply contains_occurs; exact Hc.
Qed.

Lemma is_setbp1_relevant_case_insensitive_witness :
  Py.lower "SETBP1 variant" = Py.lower "setbp1 VARIANT"
  /\ _is_setbp1_relevant "SETBP1 variant" "Abstract" = _is_setbp1_relevant "setbp1 VARIANT" "ABSTRACT".
Proof.
  split; [reflexivity |].
  apply (is_setbp1_relevant_case_insensitive "SETBP1 variant" "Abstract"
           "setbp1 VARIANT" "ABSTRACT"); reflexivity.
Defined.

Section Replies.

Variable self : searcher.

Implicit Types (w : world) (batch pmids : list string) (all : list paper).

(** The structured-metadata stage leaves the replies of the preprint servers
    alone. *)
Lemma retry_loop_details (attempts : list nat) batch all w :
  details_replies (retry_loop self attempts batch all w).2 = details_replies w.
Proof.
  revert all w. induction attempts as [| a later IH]; intros all w; [reflexivity |].
  rewrite retry_loop_cons. unfold attempt_batch, get_esummary, record_event.
  cbn [esummary_replies].
  destruct (esummary_replies w) as [| [d |] q]; cbv beta iota.
  - destruct (a <? max_retries - 1)%nat; rewrite IH; reflexivity.
  - destruct (collect _ batch all) as [[[] | ex] all1]; [reflexivity |].
    destruct (a <? max_retries - 1)%nat; rewrite IH; reflexivity.
  - destruct (a <? max_retries - 1)%nat; rewrite IH; reflexivity.
Qed.

Lemma batch_loop_details (offsets : list nat) pmids bs all w :
  details_replies (batch_loop self offsets pmids bs all w).2 = details_replies w.
Proof.
  revert all w. induction offsets as [| i rest IH]; intros all w; [reflexivity |].
  cbn [batch_loop].
  pose proof (retry_loop_details (seq 0 max_retries) (take bs (drop i pmids)) all w)
    as Hretry.
  destruct (retry_loop self _ _ all w) as [all1 w1]. cbn in Hretry.
  rewrite IH. exact Hretry.
Qed.

Lemma pubmed_stage_details w :
  details_replies (pubmed_stage self w).2 = details_replies w.
Proof.
  unfold pubmed_stage, search_pubmed, get_esearch, record_event.
  cbn [esearch_replies].
  destruct (esearch_replies w) as [| [d |] q]; cbv beta iota; try reflexivity.
  destruct (default [] (idlist (default {| idlist := None |} (esearchresult d))))
    as [| pmid pmids]; [reflexivity |].
  unfold get_pubmed_metadata.
  pose proof (batch_loop_details (range_step (length (pmid :: pmids)) (Pos.to_nat 100))
                (pmid :: pmids) (Pos.to_nat 100) []
                {| esearch_replies := q; esummary_replies := esummary_replies w;
                   details_replies := details_replies w;
                   log := log w ++ [Get (esearch_request self)]; files := files w |})
    as Hloop.
  destruct (batch_loop self _ _ _ _ _). exact Hloop.
Qed.

End Replies.

(** X6: an exception raised after the [try] block of a page is not caught: when
    the first page has items and its total cannot be read (no message at all,
    or a total that is not a number), the adapter raises, and so does
    [run]. *)
Theorem search_preprint_server_unread_total_raises (self : searcher) (server : string)
    (w : world) (data : details_json) (rest : list (option details_json)) (e : exn) :
  details_replies w = Some data :: rest ->
  default [] (collection data) ≠ [] ->
  page_total data = Raised e ->
  (_search_preprint_server self server w).1 = Raised e
  /\ (run self w).1.1 = Raised e.
Proof.
  intros Hreplies Hitems Htotal.
  assert (Hraise : forall self0 server0 w0, details_replies w0 = Some data :: rest ->
            (_search_preprint_server self0 server0 w0).1 = Raised e).
  { intros self0 server0 w0 Hq. unfold _search_preprint_server. rewrite Hq.
    cbn [preprint_loop].
    destruct (default [] (collection data)) as [| item items]; [congruence |].
    rewrite Htotal. reflexivity. }
  split; [apply Hraise; exact Hreplies |].
  unfold run.
  pose proof (pubmed_stage_details self w) as Hkeep.
  destruct (pubmed_stage self w) as [[pubmed_papers self1] w1]. cbn in Hkeep.
  unfold search_biorxiv.
  specialize (Hraise self1 "biorxiv"%string w1 (eq_trans Hkeep Hreplies)).
  destruct (_search_preprint_server self1 "biorxiv" w1) as [[bio | ex] w2];
    cbn in Hraise; [discriminate |].
  injection Hraise as ->. reflexivity.
Qed.

Lemma search_preprint_server_unread_total_raises_witness :
  let data := {| collection := collection sample_page;
                 messages := Some [ {| total := Some (TotalStr "many") |} ] |} in
  let w := {| esearch_replies := []; esummary_replies := [];
              details_replies := [Some data]; log := []; files := [] |} in
  details_replies w = Some data :: []
  /\ default [] (collection data) <> []
  /\ page_total data = Raised ValueError
  /\ (_search_preprint_server (init "2026-02-01" "2026-02-08" "out") "biorxiv" w).1
     = Raised ValueError.
Proof.
  intros data w.
  assert (H1 : details_replies w = Some data :: []) by reflexivity.
  assert (H2 : default [] (collection data) <> []) by discriminate.
  assert (H3 : page_total data = Raised ValueError) by reflexivity.
  split; [exact H1 |]. split; [exact H2 |]. split; [exact H3 |].
  exact (proj1 (search_preprint_server_unread_total_raises
                  (init "2026-02-01" "2026-02-08" "out") "biorxiv" w data [] ValueError
                  H1 H2 H3)).
Defined.



(* ================================================================== *)
(** * Words: what [split] and [join] do to one another *)
(* ================================================================== *)

Section Words.

Implicit Types (s t cur x : string) (c : ascii) (ws : list string).

Lemma append_cons c s t : String c s +:+ t = String c (s +:+ t).
Proof. reflexivity. Qed.

Lemma append_nil_l s : EmptyString +:+ s = s.
Proof. reflexivity. Qed.

Lemma append_nil_r s : s +:+ EmptyString = s.
Proof. induction s as [| c s IH]; [reflexivity |]. by rewrite append_cons, IH. Qed.

Lemma append_assoc s t x : (s +:+ t) +:+ x = s +:+ (t +:+ x).
Proof. induction s as [| c s IH]; [reflexivity |]. by rewrite !append_cons, IH. Qed.

Lemma snoc_append cur c s : Py.snoc cur c +:+ s = cur +:+ String c s.
Proof. unfold Py.snoc. by rewrite append_assoc. Qed.

Lemma chars_cons c s : chars (String c s) = c :: chars s.
Proof. reflexivity. Qed.

Lemma chars_app s t : chars (s +:+ t) = chars s ++ chars t.
Proof.
  induction s as [| c s IH]; [reflexivity |].
  rewrite append_cons, !chars_cons, IH. reflexivity.
Qed.

Lemma is_empty_true s : Py.is_empty s = true <-> s = EmptyString.
Proof. destruct s; cbn; split; intros H; first [reflexivity | discriminate]. Qed.

Lemma is_empty_app s t :
  Py.is_empty (s +:+ t) = Py.is_empty s && Py.is_empty t.
Proof. destruct s; reflexivity. Qed.

Lemma spaceless_nil : spaceless EmptyString.
Proof. intros c []. Qed.

Lemma spaceless_cons c s :
  spaceless (String c s) <-> Py.isspace c = false /\ spaceless s.
Proof.
  unfold spaceless. rewrite chars_cons. split.
  - intros H. split; [apply H; left; reflexivity |]. intros d Hd. apply H. right. exact Hd.
  - intros [Hc Hs] d [<- | Hd]; [exact Hc | apply Hs, Hd].
Qed.

Lemma spaceless_app s t : spaceless (s +:+ t) <-> spaceless s /\ spaceless t.
Proof.
  unfold spaceless. rewrite chars_app. split.
  - intros H. split; intros c Hc; apply H, in_or_app; [left | right]; exact Hc.
  - intros [Hs Ht] c Hc. apply in_app_or in Hc. destruct Hc; [apply Hs | apply Ht]; assumption.
Qed.

(** Reading through a stretch without white space only grows the word being
    read. *)
Lemma split_from_spaceless cur x s :
  spaceless x -> Py.split_from cur (x +:+ s) = Py.split_from (cur +:+ x) s.
Proof.
  revert cur. induction x as [| c x IH]; intros cur Hx.
  - by rewrite append_nil_l, append_nil_r.
  - apply spaceless_cons in Hx as [Hc Hx]. rewrite append_cons. cbn [Py.split_from].
    rewrite Hc, IH by exact Hx. by rewrite snoc_append.
Qed.

Lemma split_from_spaceless_end cur x :
  spaceless x -> Py.split_from cur x = Py.split_from (cur +:+ x) EmptyString.
Proof.
  intros Hx. rewrite <- (split_from_spaceless cur x EmptyString Hx).
  by rewrite append_nil_r.
Qed.

Lemma split_from_space cur c s :
  Py.isspace c = true -> cur ≠ EmptyString ->
  Py.split_from cur (String c s) = cur :: Py.split s.
Proof.
  intros Hc Hcur. cbn [Py.split_from]. rewrite Hc.
  destruct cur; [congruence | reflexivity].
Qed.

(** Every element of a split is a word. *)
Lemma split_from_words cur s :
  spaceless cur -> Forall is_word (Py.split_from cur s).
Proof.
  revert cur. induction s as [| c s IH]; intros cur Hcur; cbn [Py.split_from].
  - destruct cur as [| d cur]; cbn [Py.is_empty]; constructor; [| constructor].
    split; [discriminate | exact Hcur].
  - destruct (Py.isspace c) eqn:Hc.
    + destruct cur as [| d cur]; cbn [Py.is_empty].
      * apply IH, spaceless_nil.
      * constructor; [split; [discriminate | exact Hcur] | apply IH, spaceless_nil].
    + apply IH. unfold Py.snoc. apply spaceless_app. split; [exact Hcur |].
      apply spaceless_cons. split; [exact Hc | apply spaceless_nil].
Qed.

Lemma split_words s : Forall is_word (Py.split s).
Proof. apply split_from_words, spaceless_nil. Qed.

(** Splitting what was joined by single spaces gives the words back. *)
Lemma split_join ws : Forall is_word ws -> Py.split (Py.join " " ws) = ws.
Proof.
  induction ws as [| x ws IH]; intros Hws; [reflexivity |].
  apply Forall_cons in Hws as [[Hx1 Hx2] Hws].
  destruct ws as [| y ws].
  - cbn [Py.join]. unfold Py.split.
    rewrite split_from_spaceless_end by exact Hx2.
    cbn [Py.split_from]. rewrite append_nil_l.
    destruct x; [congruence | reflexivity].
  - change (Py.join " " (x :: y :: ws)) with (x +:+ " " +:+ Py.join " " (y :: ws)).
    unfold Py.split at 1. rewrite split_from_spaceless by exact Hx2.
    rewrite append_nil_l. change (" " +:+ ?t) with (String " " t).
    rewrite split_from_space; [| reflexivity | exact Hx1].
    rewrite IH by exact Hws. reflexivity.
Qed.

(** Text put after a text never takes words away, and text without white
    space adds one word at most. *)
Lemma split_from_nonempty cur s :
  cur ≠ EmptyString -> (1 <= length (Py.split_from cur s))%nat.
Proof.
  revert cur. induction s as [| c s IH]; intros cur Hcur; cbn [Py.split_from].
  - destruct cur; [congruence | cbn; lia].
  - destruct (Py.isspace c).
    + destruct cur; [congruence | cbn; lia].
    + apply IH. unfold Py.snoc. destruct cur; discriminate.
Qed.

Lemma split_from_app_ge cur s t :
  (length (Py.split_from cur s) <= length (Py.split_from cur (s +:+ t)))%nat.
Proof.
  revert cur. induction s as [| c s IH]; intros cur.
  - rewrite append_nil_l. cbn [Py.split_from].
    destruct cur as [| d cur]; cbn [Py.is_empty length]; [lia |].
    apply split_from_nonempty. discriminate.
  - rewrite append_cons. cbn [Py.split_from].
    destruct (Py.isspace c); [| apply IH].
    destruct (Py.is_empty cur); cbn [length]; [apply IH |].
    apply le_n_S, IH.
Qed.

Lemma split_from_app_spaceless cur s x :
  spaceless cur -> spaceless x ->
  (length (Py.split_from cur (s +:+ x)) <= S (length (Py.split_from cur s)))%nat.
Proof.
  intros Hcur Hx. revert cur Hcur. induction s as [| c s IH]; intros cur Hcur.
  - rewrite append_nil_l, split_from_spaceless_end by exact Hx.
    cbn [Py.split_from]. destruct (Py.is_empty (cur +:+ x)), (Py.is_empty cur); cbn; lia.
  - rewrite append_cons. cbn [Py.split_from].
    destruct (Py.isspace c) eqn:Hc.
    + destruct (Py.is_empty cur); cbn [length].
      * apply IH, spaceless_nil.
      * apply le_n_S, IH, spaceless_nil.
    + apply IH. unfold Py.snoc. apply spaceless_app. split; [exact Hcur |].
      apply spaceless_cons. split; [exact Hc | apply spaceless_nil].
Qed.

Lemma word_count_app_ge s t : (word_count s <= word_count (s +:+ t))%nat.
Proof. apply split_from_app_ge. Qed.

Lemma word_count_app_spaceless s x :
  spaceless x -> (word_count (s +:+ x) <= S (word_count s))%nat.
Proof. intros Hx. apply split_from_app_spaceless; [apply spaceless_nil | exact Hx]. Qed.

(** What [rstrip] returns is the start of its argument. *)
Lemma rstrip_by_prefix (drop : ascii -> bool) s :
  exists q, s = Py.rstrip_by drop s +:+ q.
Proof.
  induction s as [| c s [q Hq]]; [exists EmptyString; reflexivity |].
  cbn [Py.rstrip_by].
  destruct (Py.is_empty (Py.rstrip_by drop s) && drop c).
  - exists (String c s). reflexivity.
  - exists q. rewrite append_cons, <- Hq. reflexivity.
Qed.

End Words.

Section Characters.

Implicit Types (s t cur x sep : string) (c : ascii) (ws : list string).

(** The characters of the words of a split are characters of the text. *)
Lemma split_from_chars cur s w c :
  In w (Py.split_from cur s) -> In c (chars w) -> In c (chars cur) \/ In c (chars s).
Proof.
  revert cur. induction s as [| d s IH]; intros cur Hw Hc; cbn [Py.split_from] in Hw.
  - destruct (Py.is_empty cur); [destruct Hw |].
    destruct Hw as [<- | []]. left. exact Hc.
  - rewrite chars_cons. destruct (Py.isspace d).
    + destruct (Py.is_empty cur).
      * destruct (IH _ Hw Hc) as [[] | H]. right. right. exact H.
      * destruct Hw as [<- | Hw]; [left; exact Hc |].
        destruct (IH _ Hw Hc) as [[] | H]. right. right. exact H.
    + destruct (IH _ Hw Hc) as [H | H]; [| right; right; exact H].
      unfold Py.snoc in H. rewrite chars_app in H. apply in_app_or in H.
      destruct H as [H | [<- | []]]; [left; exact H | right; left; reflexivity].
Qed.

Lemma split_chars s w c : In w (Py.split s) -> In c (chars w) -> In c (chars s).
Proof. intros Hw Hc. destruct (split_from_chars _ _ _ _ Hw Hc) as [[] | H]. exact H. Qed.

(** The characters of a join come from the separator or from an element. *)
Lemma join_chars sep ws c :
  In c (chars (Py.join sep ws)) ->
  In c (chars sep) \/ exists w, In w ws /\ In c (chars w).
Proof.
  induction ws as [| x ws IH]; intros Hc; [destruct Hc |].
  destruct ws as [| y ws].
  - right. exists x. split; [left; reflexivity | exact Hc].
  - change (Py.join sep (x :: y :: ws)) with (x +:+ sep +:+ Py.join sep (y :: ws)) in Hc.
    rewrite !chars_app in Hc. apply in_app_or in Hc. destruct Hc as [Hc | Hc].
    + right. exists x. split; [left; reflexivity | exact Hc].
    + apply in_app_or in Hc. destruct Hc as [Hc | Hc]; [left; exact Hc |].
      destruct (IH Hc) as [H | (w & Hw & H)]; [left; exact H |].
      right. exists w. split; [right; exact Hw | exact H].
Qed.

(** Replacing a character leaves none of it behind, unless the replacement
    brings it back. *)
Lemma replace_char_chars (old : ascii) (new : string) s c :
  In c (chars (Py.replace_char old new s)) ->
  In c (chars new) \/ (c ≠ old /\ In c (chars s)).
Proof.
  induction s as [| d s IH]; intros Hc; [destruct Hc |].
  cbn [Py.replace_char] in Hc. destruct (Ascii.eqb d old) eqn:Hd.
  - rewrite chars_app in Hc. apply in_app_or in Hc. destruct Hc as [Hc | Hc]; [left; exact Hc |].
    destruct (IH Hc) as [H | [H1 H2]]; [left; exact H | right].
    split; [exact H1 | right; exact H2].
  - rewrite chars_cons in Hc. destruct Hc as [<- | Hc].
    + right. split; [| left; reflexivity]. intros ->. by rewrite Ascii.eqb_refl in Hd.
    + destruct (IH Hc) as [H | [H1 H2]]; [left; exact H | right].
      split; [exact H1 | right; exact H2].
Qed.

(** The pieces between separators hold no separator. *)
Lemma split_on_from_chars (sp : ascii) cur s piece :
  ~ In sp (chars cur) -> In piece (Py.split_on_from sp cur s) -> ~ In sp (chars piece).
Proof.
  revert cur. induction s as [| d s IH]; intros cur Hcur Hp; cbn [Py.split_on_from] in Hp.
  - destruct Hp as [<- | []]. exact Hcur.
  - destruct (Ascii.eqb d sp) eqn:Hd.
    + destruct Hp as [<- | Hp]; [exact Hcur |]. apply (IH EmptyString); [intros [] | exact Hp].
    + apply (IH (Py.snoc cur d)); [| exact Hp].
      unfold Py.snoc. rewrite chars_app. intros H. apply in_app_or in H.
      destruct H as [H | [<- | []]]; [exact (Hcur H) |].
      by rewrite Ascii.eqb_refl in Hd.
Qed.

(** After a final separator comes an empty piece. *)
Lemma split_on_from_trailing (sp : ascii) cur s :
  last (Py.split_on_from sp cur (s +:+ String sp EmptyString)) = Some EmptyString.
Proof.
  revert cur. induction s as [| d s IH]; intros cur.
  - rewrite append_nil_l. cbn [Py.split_on_from]. rewrite Ascii.eqb_refl. reflexivity.
  - rewrite append_cons. cbn [Py.split_on_from].
    destruct (Ascii.eqb d sp); [| apply IH].
    specialize (IH EmptyString).
    destruct (Py.split_on_from sp EmptyString (s +:+ String sp EmptyString));
      [discriminate | exact IH].
Qed.

Lemma lstrip_chars s c : In c (chars (Py.lstrip s)) -> In c (chars s).
Proof.
  induction s as [| d s IH]; intros Hc; [destruct Hc |].
  cbn [Py.lstrip] in Hc. destruct (Py.isspace d); [| exact Hc].
  rewrite chars_cons. right. apply IH, Hc.
Qed.

Lemma rstrip_by_chars (drop : ascii -> bool) s c :
  In c (chars (Py.rstrip_by drop s)) -> In c (chars s).
Proof.
  intros Hc. destruct (rstrip_by_prefix drop s) as [q Hq].
  rewrite Hq, chars_app. apply in_or_app. left. exact Hc.
Qed.

Lemma strip_chars s c : In c (chars (Py.strip s)) -> In c (chars s).
Proof. intros Hc. apply lstrip_chars, (rstrip_by_chars _ _ _ Hc). Qed.

End Characters.

(** X9: for a word limit N of at least one, the summary has N words at most;
    and a title of at most N words gives a summary with the very words of the
    title, so that summarising it again changes nothing. *)
Theorem create_summary_words (title : string) (N : Z) :
  1 <= N ->
  Z.of_nat (word_count (create_summary title N)) <= N
  /\ (Z.of_nat (word_count title) <= N ->
      Py.split (create_summary title N) = Py.split title
      /\ create_summary (create_summary title N) N = create_summary title N).
Proof.
  intros HN.
  assert (Hshort : forall t, Z.of_nat (word_count t) <= N ->
            create_summary t N = Py.join " " (Py.split t)).
  { intros t Hle. unfold word_count in Hle. unfold create_summary.
    destruct (Z.of_nat (length (Py.split t)) <=? N) eqn:E1;
      [| apply Z.leb_gt in E1; lia].
    destruct (N <? Z.of_nat (length (Py.split t))) eqn:E2;
      [apply Z.ltb_lt in E2; lia |].
    rewrite slice_to_nonneg by lia. rewrite take_ge by lia. reflexivity. }
  assert (Hwords : Z.of_nat (word_count title) <= N ->
            Py.split (create_summary title N) = Py.split title).
  { intros Hle. rewrite (Hshort _ Hle). apply split_join, split_words. }
  split.
  - destruct (Z_le_gt_dec (Z.of_nat (word_count title)) N) as [Hle | Hgt].
    + unfold word_count at 1. rewrite (Hwords Hle). exact Hle.
    + unfold word_count in Hgt. unfold create_summary.
      destruct (Z.of_nat (length (Py.split title)) <=? N) eqn:E1;
        [apply Z.leb_le in E1; lia |].
      destruct (N <? Z.of_nat (length (Py.split title))) eqn:E2;
        [| apply Z.ltb_ge in E2; lia].
      rewrite slice_to_nonneg by lia.
      set (J := Py.join " " (take (Z.to_nat (N - 1)) (Py.split title))).
      assert (HJ : word_count J = length (take (Z.to_nat (N - 1)) (Py.split title))).
      { unfold word_count, J. rewrite split_join; [reflexivity |].
        apply Forall_take, split_words. }
      pose proof (word_count_app_spaceless (Py.rstrip_chars ".,;:" J) "...") as H1.
      destruct (rstrip_by_prefix
                  (fun c => existsb (Ascii.eqb c) (list_ascii_of_string ".,;:")) J)
        as [q Hq].
      pose proof (word_count_app_ge (Py.rstrip_chars ".,;:" J) q) as H2.
      unfold Py.rstrip_chars in H1, H2 |- *. rewrite <- Hq, HJ in H2.
      rewrite length_take in H2.
      assert (Hdots : spaceless "...").
      { intros c [<- | [<- | [<- | []]]]; reflexivity. }
      specialize (H1 Hdots). lia.
  - intros Hle. split; [exact (Hwords Hle) |].
    rewrite (Hshort title Hle) at 2. rewrite <- (Hwords Hle). apply Hshort.
    unfold word_count. rewrite (Hwords Hle). exact Hle.
Qed.

Lemma create_summary_words_witness :
  1 <= 7
  /\ Z.of_nat (word_count (create_summary "Role of SETBP1, in brief: a new mouse model of disease" 7)) <= 7.
Proof.
  split; [lia |].
  apply (create_summary_words "Role of SETBP1, in brief: a new mouse model of disease" 7).
  lia.
Defined.

(** X10: for a limit M that is not negative, the words of the key-finding
    string are the first M words kept from the title, M at most; no colon is
    left in it. *)
Theorem create_key_findings_words (title abstract : string) (M : Z) :
  0 <= M ->
  let words := Py.split (Py.replace_char ":" " " title) in
  let non_stop := List.filter (fun w => negb (in_skip (Py.lower w))) words in
  Py.split (create_key_findings title abstract M)
  = take (Z.to_nat M) (if (10 <=? length non_stop)%nat then non_stop else words)
  /\ Z.of_nat (word_count (create_key_findings title abstract M)) <= M
  /\ ~ In ":"%char (chars (create_key_findings title abstract M)).
Proof.
  intros HM words non_stop.
  set (kept := if (10 <=? length non_stop)%nat then non_stop else words).
  assert (Hkf : create_key_findings title abstract M
                 = Py.join " " (take (Z.to_nat M) kept)).
  { unfold create_key_findings. fold words. fold non_stop.
    rewrite slice_to_nonneg by lia. do 2 f_equal. unfold kept.
    destruct (10 <=? length non_stop)%nat eqn:E.
    - apply Nat.leb_le in E.
      assert (Hlt : (length non_stop <? 10)%nat = false) by (apply Nat.ltb_ge; lia).
      rewrite Hlt. unfold non_stop. apply List.filter_ext. intros w. apply orb_false_r.
    - apply Nat.leb_gt in E.
      assert (Hlt : (length non_stop <? 10)%nat = true) by (apply Nat.ltb_lt; lia).
      rewrite Hlt. clear. induction words as [| w ws IH]; [reflexivity |].
      cbn [List.filter]. rewrite orb_true_r. f_equal. exact IH. }
  assert (Hsub : forall w, In w kept -> In w words).
  { intros w Hw. unfold kept in Hw. destruct (10 <=? length non_stop)%nat; [| exact Hw].
    unfold non_stop in Hw. apply filter_In in Hw. apply Hw. }
  assert (Hkept : Forall is_word kept).
  { apply List.Forall_forall. intros w Hw.
    pose proof (split_words (Py.replace_char ":" " " title)) as Hall.
    rewrite List.Forall_forall in Hall. apply Hall, Hsub, Hw. }
  assert (Hsplit : Py.split (create_key_findings title abstract M)
                   = take (Z.to_nat M) kept).
  { rewrite Hkf. apply split_join, Forall_take, Hkept. }
  split; [exact Hsplit |]. split.
  - unfold word_count. rewrite Hsplit, length_take. lia.
  - rewrite Hkf. intros Hc. apply join_chars in Hc.
    destruct Hc as [[Hc | []] | (w & Hw & Hc)]; [discriminate |].
    assert (Hin : In w words).
    { apply Hsub. apply list_elem_of_In. apply list_elem_of_In in Hw.
      exact (subseteq_take _ _ _ Hw). }
    pose proof (split_chars _ _ _ Hin Hc) as Hc'.
    apply replace_char_chars in Hc'. destruct Hc' as [[Hc' | []] | [Hne _]];
      [discriminate | congruence].
Qed.

Lemma create_key_findings_words_witness :
  0 <= 3
  /\ Py.split (create_key_findings "SETBP1: the role of chromatin" EmptyString 3)
     = ["SETBP1"; "the"; "role"]%string.
Proof.
  split; [lia |].
  destruct (create_key_findings_words "SETBP1: the role of chromatin" EmptyString 3)
    as [Hsplit _]; [lia |].
  rewrite Hsplit. vm_compute. reflexivity.
Defined.

(** X11: the surname derivation gives the empty string or one word, in which
    there is no comma; it gives the empty string whenever the authors end in
    a comma. *)
Theorem extract_last_author_name_token (authors_string : string) :
  (extract_last_author_name authors_string = EmptyString
   \/ (is_word (extract_last_author_name authors_string)
       /\ ~ In ","%char (chars (extract_last_author_name authors_string))
       /\ Py.split (extract_last_author_name authors_string)
          = [extract_last_author_name authors_string]))
  /\ extract_last_author_name (authors_string +:+ ",") = EmptyString.
Proof.
  split.
  - unfold extract_last_author_name.
    destruct (negb (Py.truthy authors_string)); [left; reflexivity |]. cbv zeta.
    destruct (last (map Py.strip (Py.split_on "," authors_string)))
      as [last_author |] eqn:Hlast; [| left; reflexivity].
    destruct (Py.split last_author) as [| first rest] eqn:Hsplit; [left; reflexivity |].
    right.
    assert (Hfirst : In first (Py.split last_author)) by (rewrite Hsplit; left; reflexivity).
    assert (Hword : is_word first).
    { pose proof (split_words last_author) as Hall.
      rewrite List.Forall_forall in Hall. apply Hall, Hfirst. }
    split; [exact Hword |]. split.
    + intros Hc. apply (split_chars _ _ _ Hfirst) in Hc.
      apply last_Some_elem_of, list_elem_of_In, in_map_iff in Hlast.
      destruct Hlast as (piece & <- & Hpiece).
      apply strip_chars in Hc.
      revert Hc. apply (split_on_from_chars "," EmptyString authors_string);
        [intros [] | exact Hpiece].
    + change first with (Py.join " " [first]). apply split_join.
      constructor; [exact Hword | constructor].
  - unfold extract_last_author_name.
    assert (Htruthy : Py.truthy (authors_string +:+ ",") = true)
      by (destruct authors_string; reflexivity).
    rewrite Htruthy. cbv zeta. cbn [negb].
    unfold Py.split_on. rewrite fmap_last.
    change (authors_string +:+ ",") with (authors_string +:+ String "," EmptyString).
    rewrite split_on_from_trailing. reflexivity.
Qed.

(* ================================================================== *)
(** * Further properties of the structured-metadata adapter *)
(* ================================================================== *)

Section Batches.

Implicit Types (pmids batch : list string) (bs i fuel : nat).

Lemma range_from_concat pmids bs fuel i :
  (0 < bs)%nat -> (length pmids <= i + fuel)%nat ->
  concat (map (fun j => take bs (drop j pmids)) (range_from fuel i (length pmids) bs))
  = drop i pmids.
Proof.
  intros Hbs. revert i. induction fuel as [| fuel IH]; intros i Hfuel; cbn [range_from].
  - cbn. rewrite drop_ge by lia. reflexivity.
  - destruct (i <? length pmids)%nat eqn:E.
    + cbn [map concat]. rewrite IH by lia.
      rewrite <- (take_drop bs (drop i pmids)) at 2. rewrite drop_drop. reflexivity.
    + apply Nat.ltb_ge in E. cbn. rewrite drop_ge by lia. reflexivity.
Qed.

Lemma range_from_bound fuel i stop bs j :
  In j (range_from fuel i stop bs) -> (j < stop)%nat.
Proof.
  revert i. induction fuel as [| fuel IH]; intros i Hj; cbn [range_from] in Hj;
    [destruct Hj |].
  destruct (i <? stop)%nat eqn:E; [| destruct Hj].
  destruct Hj as [<- | Hj]; [apply Nat.ltb_lt, E | apply (IH _ Hj)].
Qed.

End Batches.

(** X12: the batches of a positive size put together give the identifiers
    back, in order, each one in exactly one batch; no batch is empty and none
    is longer than the size. *)
Theorem batches_cover (pmids : list string) (batch_size : nat) :
  (0 < batch_size)%nat ->
  concat (batches pmids batch_size) = pmids
  /\ (forall batch, In batch (batches pmids batch_size) ->
        (1 <= length batch <= batch_size)%nat).
Proof.
  intros Hbs. unfold batches, range_step. split.
  - rewrite range_from_concat by lia. reflexivity.
  - intros batch Hin. apply in_map_iff in Hin. destruct Hin as (i & <- & Hi).
    apply range_from_bound in Hi. rewrite length_take, length_drop. lia.
Qed.

Lemma batches_cover_witness :
  (0 < 2)%nat /\ concat (batches ["1"; "2"; "3"; "4"; "5"]%string 2)
                 = ["1"; "2"; "3"; "4"; "5"]%string.
Proof.
  split; [lia |]. apply (batches_cover ["1"; "2"; "3"; "4"; "5"]%string 2). lia.
Defined.

Section Requests.

Variable self : searcher.

Implicit Types (batch pmids : list string) (all : list paper) (w : world).

Lemma attempt_batch_gets batch all w :
  exists l, log (attempt_batch self batch all w).2 = log w ++ l
            /\ List.filter is_get l = [Get (esummary_request self batch)].
Proof.
  exists [Get (esummary_request self batch)]. split; [apply attempt_batch_log | reflexivity].
Qed.

(** A retry loop asks for its batch once at least, when it has an attempt to
    make, and no more often than it has attempts. *)
Lemma retry_loop_gets (attempts : list nat) batch all w :
  exists l k,
    log (retry_loop self attempts batch all w).2 = log w ++ l
    /\ List.filter is_get l = replicate k (Get (esummary_request self batch))
    /\ (k <= length attempts)%nat
    /\ (attempts ≠ [] -> 1 <= k)%nat.
Proof.
  revert all w. induction attempts as [| a later IH]; intros all w.
  - exists [], 0%nat. cbn. rewrite app_nil_r. repeat split; [lia | congruence].
  - rewrite retry_loop_cons.
    pose proof (attempt_batch_log self batch all w) as Hlog.
    destruct (attempt_batch self batch all w) as [[[[] | e] all1] w1]; cbn in Hlog.
    + exists [Get (esummary_request self batch)], 1%nat. cbn.
      repeat split; [exact Hlog | lia | lia].
    + destruct (a <? max_retries - 1)%nat.
      * destruct (IH all1 (sleep ((Z.of_nat a + 1) * 2 * 1000) w1)) as (l & k & Hl & Hg & Hk & _).
        exists (Get (esummary_request self batch)
                  :: Sleep ((Z.of_nat a + 1) * 2 * 1000) :: l), (S k).
        rewrite Hl. cbn [sleep record_event log]. rewrite Hlog, <- !app_assoc.
        cbn [app List.filter is_get replicate length]. rewrite Hg.
        repeat split; lia.
      * destruct (IH all1 w1) as (l & k & Hl & Hg & Hk & _).
        exists (Get (esummary_request self batch) :: l), (S k).
        rewrite Hl, Hlog, <- !app_assoc.
        cbn [app List.filter is_get replicate length]. rewrite Hg.
        repeat split; lia.
Qed.

Lemma batch_loop_gets (offsets : list nat) pmids bs all w :
  exists l ks,
    log (batch_loop self offsets pmids bs all w).2 = log w ++ l
    /\ length ks = length offsets
    /\ Forall (fun k => 1 <= k <= 3)%nat ks
    /\ List.filter is_get l
       = batch_requests self ks (map (fun i => take bs (drop i pmids)) offsets).
Proof.
  revert all w. induction offsets as [| i rest IH]; intros all w; cbn [batch_loop].
  - exists [], []. cbn. rewrite app_nil_r. repeat split. constructor.
  - destruct (retry_loop_gets (seq 0 max_retries) (take bs (drop i pmids)) all w)
      as (l1 & k & Hl1 & Hg1 & Hk & Hk1).
    destruct (retry_loop self _ _ all w) as [all1 w1]. cbn in Hl1.
    destruct (IH all1 (sleep 500 w1)) as (l2 & ks & Hl2 & Hlen & Hks & Hg2).
    exists (l1 ++ Sleep 500 :: l2), (k :: ks).
    rewrite Hl2. cbn [sleep record_event log]. rewrite Hl1, <- !app_assoc.
    split; [reflexivity |]. split; [cbn; lia |]. split.
    + constructor; [| exact Hks]. cbn in Hk. split; [apply Hk1; discriminate | lia].
    + rewrite List.filter_app. cbn [List.filter is_get]. rewrite Hg1, Hg2. reflexivity.
Qed.

(** The loop over a batch does the same whatever was collected before. *)
Lemma collect_acc res batch all :
  collect res batch all
  = ((collect res batch []).1, all ++ (collect res batch []).2).
Proof.
  revert all. induction batch as [| pmid rest IH]; intros all; cbn [collect].
  - cbn. by rewrite app_nil_r.
  - destruct (res !! pmid) as [article |]; [| apply IH].
    destruct (article_metadata pmid article) as [m | e].
    + rewrite IH, (IH ([] ++ [m])). cbn. rewrite <- app_assoc. reflexivity.
    + cbn. by rewrite app_nil_r.
Qed.

End Requests.

(** X13: whatever the network does, the requests of [get_pubmed_metadata] are
    the requests for its batches, in order, each batch asked once, twice or
    three times. *)
Theorem get_pubmed_metadata_requests (self : searcher) (pmids : list string)
    (batch_size : positive) (w : world) :
  exists l ks,
    log (get_pubmed_metadata self pmids batch_size w).2 = log w ++ l
    /\ length ks = length (batches pmids (Pos.to_nat batch_size))
    /\ Forall (fun k => 1 <= k <= 3)%nat ks
    /\ List.filter is_get l
       = batch_requests self ks (batches pmids (Pos.to_nat batch_size)).
Proof.
  unfold get_pubmed_metadata, batches.
  destruct (batch_loop_gets self (range_step (length pmids) (Pos.to_nat batch_size))
              pmids (Pos.to_nat batch_size) [] w) as (l & ks & Hl & Hlen & Hks & Hg).
  exists l, ks. rewrite length_map. repeat split; assumption.
Qed.

Section Records.

Variable self : searcher.

Implicit Types (batch pmids : list string) (all : list paper) (w : world).

Lemma article_metadata_fields pmid0 article m :
  article_metadata pmid0 article = Ok m -> pmid m = pmid0 /\ source m = "PubMed"%string.
Proof.
  unfold article_metadata. cbv zeta.
  destruct (pubdate_year article); [| discriminate].
  destruct (first_doi _); [| discriminate].
  intros [= <-]. split; reflexivity.
Qed.

Lemma collect_forall (P : paper -> Prop) res batch all :
  (forall pmid0 article m, In pmid0 batch -> article_metadata pmid0 article = Ok m -> P m) ->
  Forall P all -> Forall P (collect res batch all).2.
Proof.
  revert all. induction batch as [| pmid0 rest IH]; intros all Hnew Hall; cbn [collect].
  - exact Hall.
  - assert (Hrest : forall p a m, In p rest -> article_metadata p a = Ok m -> P m)
      by (intros p a m Hp; apply Hnew; right; exact Hp).
    destruct (res !! pmid0) as [article |]; [| apply IH; assumption].
    destruct (article_metadata pmid0 article) as [m | e] eqn:Hm; [| exact Hall].
    apply IH; [exact Hrest |]. apply Forall_app. split; [exact Hall |].
    constructor; [| constructor]. apply (Hnew pmid0 article); [left; reflexivity | exact Hm].
Qed.

Lemma retry_loop_forall (P : paper -> Prop) (attempts : list nat) batch all w :
  (forall pmid0 article m, In pmid0 batch -> article_metadata pmid0 article = Ok m -> P m) ->
  Forall P all -> Forall P (retry_loop self attempts batch all w).1.
Proof.
  intros Hnew. revert all w. induction attempts as [| a later IH]; intros all w Hall.
  - exact Hall.
  - rewrite retry_loop_cons. unfold attempt_batch.
    destruct (get_esummary _ w) as [[data |] w1].
    + pose proof (collect_forall P (default ∅ (result data)) batch all Hnew Hall) as Hc.
      destruct (collect _ batch all) as [[[] | e] all1]; cbn in Hc; cbv beta iota;
        [exact Hc |].
      destruct (a <? max_retries - 1)%nat; apply IH, Hc.
    + destruct (a <? max_retries - 1)%nat; apply IH, Hall.
Qed.

Lemma batch_loop_forall (P : paper -> Prop) (offsets : list nat) pmids bs all w :
  (forall pmid0 article m, In pmid0 pmids -> article_metadata pmid0 article = Ok m -> P m) ->
  Forall P all -> Forall P (batch_loop self offsets pmids bs all w).1.
Proof.
  intros Hnew. revert all w. induction offsets as [| i rest IH]; intros all w Hall;
    cbn [batch_loop]; [exact Hall |].
  pose proof (retry_loop_forall P (seq 0 max_retries) (take bs (drop i pmids)) all w) as Hr.
  destruct (retry_loop self _ _ all w) as [all1 w1]. cbn in Hr.
  apply IH, Hr; [| exact Hall].
  intros pmid0 article m Hin. apply Hnew.
  apply list_elem_of_In. apply list_elem_of_In in Hin.
  apply (subseteq_drop i pmids), (subseteq_take bs _), Hin.
Qed.

End Records.

(** X14: whatever the network does, every record [get_pubmed_metadata]
    returns has the source [PubMed] and the PMID of one of the identifiers it
    was asked for. *)
Theorem get_pubmed_metadata_records (self : searcher) (pmids : list string)
    (batch_size : positive) (w : world) (p : paper) :
  In p (get_pubmed_metadata self pmids batch_size w).1 ->
  source p = "PubMed"%string /\ In (pmid p) pmids.
Proof.
  intros Hin. unfold get_pubmed_metadata in Hin.
  pose proof (batch_loop_forall self
                (fun q => source q = "PubMed"%string /\ In (pmid q) pmids)
                (range_step (length pmids) (Pos.to_nat batch_size)) pmids
                (Pos.to_nat batch_size) [] w) as Hall.
  assert (Hnew : forall pmid0 article m, In pmid0 pmids ->
            article_metadata pmid0 article = Ok m ->
            source m = "PubMed"%string /\ In (pmid m) pmids).
  { intros pmid0 article m Hp Hm. apply article_metadata_fields in Hm as [-> ->].
    split; [reflexivity | exact Hp]. }
  specialize (Hall Hnew (List.Forall_nil _)).
  rewrite List.Forall_forall in Hall. apply Hall, Hin.
Qed.

Lemma get_pubmed_metadata_records_witness :
  In first_record
     (get_pubmed_metadata (init "2026-02-01" "2026-02-08" "out") ["1"; "2"]%string 100
        blank_pubdate_world).1
  /\ source first_record = "PubMed"%string.
Proof.
  assert (Hin : In first_record
                  (get_pubmed_metadata (init "2026-02-01" "2026-02-08" "out")
                     ["1"; "2"]%string 100 blank_pubdate_world).1)
    by (vm_compute; left; reflexivity).
  split; [exact Hin |].
  exact (proj1 (get_pubmed_metadata_records _ _ _ _ _ Hin)).
Defined.

Section Clean.

Variable self : searcher.

Implicit Types (batch pmids : list string) (all : list paper) (w : world).

Lemma attempt_batch_clean batch all w data rest :
  esummary_replies w = Some data :: rest ->
  clean_reply data batch ->
  exists w1,
    attempt_batch self batch all w
    = (Ok tt, all ++ batch_records (default ∅ (result data)) batch, w1)
    /\ esummary_replies w1 = rest
    /\ log w1 = log w ++ [Get (esummary_request self batch)].
Proof.
  intros Hq Hclean. unfold attempt_batch, get_esummary, record_event.
  cbn [esummary_replies]. rewrite Hq. cbn [log].
  rewrite collect_acc. unfold clean_reply in Hclean.
  destruct (collect (default ∅ (result data)) batch []) as [r l] eqn:Hc.
  cbn in Hclean. subst r. apply collect_ok in Hc. cbn in Hc. subst l.
  eexists. cbn. repeat split.
Qed.

Lemma batch_loop_clean (offsets : list nat) pmids bs all w
    (datas : list esummary_json) (rest : list (option esummary_json)) :
  esummary_replies w = map Some datas ++ rest ->
  Forall2 clean_reply datas (map (fun i => take bs (drop i pmids)) offsets) ->
  (batch_loop self offsets pmids bs all w).1
  = all ++ clean_records datas (map (fun i => take bs (drop i pmids)) offsets)
  /\ esummary_replies (batch_loop self offsets pmids bs all w).2 = rest
  /\ log (batch_loop self offsets pmids bs all w).2
     = log w ++ clean_events self (map (fun i => take bs (drop i pmids)) offsets).
Proof.
  revert datas all w. induction offsets as [| i offs IH]; intros datas all w Hq Hclean.
  - cbn [map] in Hclean. apply Forall2_nil_inv_r in Hclean. subst datas.
    cbn. rewrite !app_nil_r. repeat split. exact Hq.
  - cbn [map] in Hclean. apply Forall2_cons_inv_r in Hclean.
    destruct Hclean as (d & ds & Hd & Hds & ->).
    cbn [batch_loop]. change (seq 0 max_retries) with [0; 1; 2]%nat.
    rewrite retry_loop_cons.
    destruct (attempt_batch_clean (take bs (drop i pmids)) all w d (map Some ds ++ rest)
                Hq Hd) as (w1 & -> & Hq1 & Hlog1).
    destruct (IH ds (all ++ batch_records (default ∅ (result d)) (take bs (drop i pmids)))
                (sleep 500 w1) Hq1 Hds) as (H1 & H2 & H3).
    split; [| split].
    + rewrite H1. unfold clean_records. cbn [map zip_with concat].
      rewrite <- app_assoc. reflexivity.
    + exact H2.
    + rewrite H3. cbn [sleep record_event log map clean_events flat_map].
      rewrite Hlog1, <- !app_assoc. reflexivity.
Qed.

End Clean.

(** X15: when each batch is answered at once by a reply from which its loop
    runs through, [get_pubmed_metadata] returns the records of the batches in
    order, having made one request for each batch and slept half a second
    after each; the replies behind are left. *)
Theorem get_pubmed_metadata_clean (self : searcher) (pmids : list string)
    (batch_size : positive) (w : world) (datas : list esummary_json)
    (rest : list (option esummary_json)) :
  esummary_replies w = map Some datas ++ rest ->
  Forall2 clean_reply datas (batches pmids (Pos.to_nat batch_size)) ->
  (get_pubmed_metadata self pmids batch_size w).1
  = clean_records datas (batches pmids (Pos.to_nat batch_size))
  /\ esummary_replies (get_pubmed_metadata self pmids batch_size w).2 = rest
  /\ log (get_pubmed_metadata self pmids batch_size w).2
     = log w ++ clean_events self (batches pmids (Pos.to_nat batch_size)).
Proof.
  intros Hq Hclean. unfold get_pubmed_metadata.
  exact (batch_loop_clean self _ pmids _ [] w datas rest Hq Hclean).
Qed.

Lemma get_pubmed_metadata_clean_witness :
  let self := init "2026-02-01" "2026-02-08" "out" in
  let d1 := {| result := Some {[ "1"%string := sample_article "First" "2026 Jan" ]} |} in
  let d2 := {| result := Some ∅ |} in
  let w := {| esearch_replies := []; esummary_replies := [Some d1; Some d2; None];
              details_replies := []; log := []; files := [] |} in
  esummary_replies w = map Some [d1; d2] ++ [None]
  /\ Forall2 clean_reply [d1; d2] (batches ["1"; "2"]%string (Pos.to_nat 1))
  /\ (get_pubmed_metadata self ["1"; "2"]%string 1 w).1
     = clean_records [d1; d2] (batches ["1"; "2"]%string (Pos.to_nat 1)).
Proof.
  intros self d1 d2 w.
  assert (H1 : esummary_replies w = map Some [d1; d2] ++ [None]) by reflexivity.
  assert (H2 : Forall2 clean_reply [d1; d2] (batches ["1"; "2"]%string (Pos.to_nat 1))).
  { change (batches ["1"; "2"]%string (Pos.to_nat 1)) with [["1"%string]; ["2"%string]].
    repeat constructor; vm_compute; reflexivity. }
  split; [exact H1 |]. split; [exact H2 |].
  exact (proj1 (get_pubmed_metadata_clean self ["1"; "2"]%string 1 w [d1; d2] [None] H1 H2)).
Defined.

(* ================================================================== *)
(** * Further properties of the preprint adapters *)
(* ================================================================== *)

Section Pages.

Variables server start_date end_date : string.

Implicit Types (pages : list details_json) (q : list (option details_json))
  (papers : list paper) (lg : list event).


(** The loop only adds records of relevant items of the pages. *)
Lemma preprint_loop_forall (P : paper -> Prop) q cursor papers lg r :
  (forall item, item_relevant item = true -> P (preprint_record server item)) ->
  Forall P papers ->
  (preprint_loop server start_date end_date q cursor papers lg).1.1 = Ok r ->
  Forall P r.
Proof.
  intros Hnew. revert cursor papers lg.
  induction q as [| [data |] rest IH]; intros cursor papers lg Hall Hr;
    cbn [preprint_loop] in Hr.
  - cbn in Hr. injection Hr as <-. exact Hall.
  - destruct (default [] (collection data)) as [| item items] eqn:Hcoll.
    { cbn in Hr. injection Hr as <-. exact Hall. }
    assert (Hall1 : Forall P (papers ++ relevant_records server (item :: items))).
    { apply Forall_app. split; [exact Hall |]. unfold relevant_records.
      apply List.Forall_forall. intros p Hp. apply in_map_iff in Hp.
      destruct Hp as (it & <- & Hit). apply filter_In in Hit. apply Hnew, Hit. }
    destruct (page_total data) as [total_count | ex]; [| discriminate].
    destruct (cursor + page_size >=? total_count).
    + cbn in Hr. injection Hr as <-. exact Hall1.
    + eapply IH; [exact Hall1 | exact Hr].
  - cbn in Hr. injection Hr as <-. exact Hall.
Qed.

End Pages.



(** X17: every record the adapter returns is the record of an item that passed
    the relevance filter: it has no PMID, the server as its source and
    [<server> (preprint)] as its venue. *)
Theorem search_preprint_server_records (self : searcher) (server : string)
    (w : world) (r : list paper) (p : paper) :
  (_search_preprint_server self server w).1 = Ok r ->
  In p r ->
  (exists item, item_relevant item = true /\ p = preprint_record server item)
  /\ pmid p = EmptyString
  /\ source p = server
  /\ journal p = server +:+ " (preprint)".
Proof.
  intros Hr Hp. unfold _search_preprint_server in Hr.
  pose proof (preprint_loop_forall server (start_date self) (end_date self)
                (fun q => exists item, item_relevant item = true
                                       /\ q = preprint_record server item)
                (details_replies w) 0 [] (log w) r) as Hall.
  destruct (preprint_loop _ _ _ _ _ _ _) as [[res replies] lg]. cbn in Hr, Hall.
  assert (Hnew : forall item, item_relevant item = true ->
            exists item0, item_relevant item0 = true
                          /\ preprint_record server item = preprint_record server item0)
    by (intros item Hi; exists item; split; [exact Hi | reflexivity]).
  specialize (Hall Hnew (List.Forall_nil _) Hr).
  rewrite List.Forall_forall in Hall. destruct (Hall p Hp) as (item & Hrel & ->).
  split; [exists item; split; [exact Hrel | reflexivity] |]. repeat split.
Qed.

Lemma search_preprint_server_records_witness :
  let self := init "2026-02-01" "2026-02-08" "out" in
  let p := preprint_record "biorxiv"
             {| i_title := Some "SETBP1 variants in a cohort"%string;
                i_abstract := Some "We report."%string;
                i_authors := Some "Doe, J.; Roe, R."%string;
                i_doi := Some "10.1101/2026.02.03.000001"%string;
                i_date := Some "2026-02-03"%string |} in
  (_search_preprint_server self "biorxiv" sample_page_world).1 = Ok [p]
  /\ In p [p]
  /\ source p = "biorxiv"%string.
Proof.
  intros self p.
  assert (H1 : (_search_preprint_server self "biorxiv" sample_page_world).1 = Ok [p])
    by (vm_compute; reflexivity).
  assert (H2 : In p [p]) by (left; reflexivity).
  split; [exact H1 |]. split; [exact H2 |].
  destruct (search_preprint_server_records self "biorxiv" sample_page_world [p] p H1 H2)
    as (_ & _ & Hs & _).
  exact Hs.
Defined.

(* ================================================================== *)
(** * Properties of the search of the front end *)
(* ================================================================== *)

Section Sources.

Implicit Types (self : searcher) (w : world) (papers : list paper).

Lemma pubmed_stage_sources self w :
  Forall known_source (pubmed_stage self w).1.1.
Proof.
  unfold pubmed_stage. destruct (search_pubmed self w) as [[| pmid0 pmids] w1];
    [constructor |].
  unfold get_pubmed_metadata.
  pose proof (batch_loop_forall self known_source
                (range_step (length (pmid0 :: pmids)) (Pos.to_nat 100))
                (pmid0 :: pmids) (Pos.to_nat 100) [] w1) as Hall.
  destruct (batch_loop self _ _ _ _ w1) as [ps w2]. cbn in Hall |- *.
  apply Hall; [| constructor].
  intros p a m _ Hm. apply article_metadata_fields in Hm as [_ Hs]. left. exact Hs.
Qed.

Lemma search_preprint_server_sources self server w r :
  (_search_preprint_server self server w).1 = Ok r ->
  Forall (fun p => source p = server) r.
Proof.
  intros Hr. unfold _search_preprint_server in Hr.
  pose proof (preprint_loop_forall server (start_date self) (end_date self)
                (fun p => source p = server) (details_replies w) 0 [] (log w) r) as Hall.
  destruct (preprint_loop _ _ _ _ _ _ _) as [[res replies] lg]. cbn in Hr, Hall.
  apply Hall; [reflexivity | constructor | exact Hr].
Qed.

(** The papers of a run come from its three adapters. *)
Lemma run_sources (start_date end_date output_dir : string) w self' w' :
  run (init start_date end_date output_dir) w = (Ok tt, self', w') ->
  Forall known_source (all_papers self').
Proof.
  intros Hrun. unfold run in Hrun.
  pose proof (pubmed_stage_papers (init start_date end_date output_dir) w) as Hpapers.
  pose proof (pubmed_stage_sources (init start_date end_date output_dir) w) as Hpub.
  destruct (pubmed_stage _ w) as [[pubmed_papers self1] w1]. cbn in Hpapers, Hpub.
  unfold search_biorxiv, search_medrxiv in Hrun.
  pose proof (search_preprint_server_sources self1 "biorxiv" w1) as Hbio.
  destruct (_search_preprint_server self1 "biorxiv" w1) as [[bio | ex] w2];
    [| discriminate].
  pose proof (search_preprint_server_sources self1 "medrxiv" w2) as Hmed.
  destruct (_search_preprint_server self1 "medrxiv" w2) as [[med | ex] w3];
    [| discriminate].
  specialize (Hbio bio eq_refl). specialize (Hmed med eq_refl).
  assert (Hall : Forall known_source ((all_papers self1 ++ bio) ++ med)).
  { rewrite Hpapers. cbn [all_papers init app]. repeat apply Forall_app_2.
    - exact Hpub.
    - eapply Forall_impl; [exact Hbio |]. intros p Hp. right. left. exact Hp.
    - eapply Forall_impl; [exact Hmed |]. intros p Hp. right. right. exact Hp. }
  cbn [all_papers with_all_papers] in Hrun.
  destruct ((all_papers self1 ++ bio) ++ med) as [| p ps] eqn:Heq.
  - injection Hrun as <- _. cbn. constructor.
  - injection Hrun as <- _. cbn [all_papers with_all_papers]. exact Hall.
Qed.

Lemma count_source_known papers :
  Forall known_source papers ->
  (count_source "PubMed" papers + count_source "biorxiv" papers
   + count_source "medrxiv" papers)%nat = length papers.
Proof.
  unfold count_source. induction 1 as [| p ps Hp _ IH]; [reflexivity |].
  rewrite !filter_cons_if. cbn [length].
  destruct Hp as [Hp | [Hp | Hp]]; rewrite Hp;
    repeat match goal with
           | |- context [String.eqb ?a ?b] =>
               let v := eval vm_compute in (String.eqb a b) in
               change (String.eqb a b) with v
           end;
    cbv iota; cbn [length];
    rewrite <- IH, ?Nat.add_succ_r, ?Nat.add_succ_l; reflexivity.
Qed.

End Sources.

(** X18: when the search of the front end returns, the three counts by source
    it reports add up to the total number of papers, and so do the five
    counts by category. *)
Theorem run_search_counts (output_dir start_date_str end_date_str : string)
    (w w' : world) (res : search_results) :
  run_search output_dir start_date_str end_date_str w = (Ok res, w') ->
  (count_pubmed res + count_biorxiv res + count_medrxiv res)%nat = total_papers res
  /\ list_sum (map snd (category_counts res)) = total_papers res
  /\ map fst (category_counts res)
     = ["mechanism"; "therapeutics"; "models"; "dataset"; "other"]%string.
Proof.
  unfold run_search. intros Hres.
  destruct (run (init start_date_str end_date_str output_dir) w)
    as [[[[] | ex] self1] w1] eqn:Hrun; [| discriminate].
  injection Hres as <- _. cbn [count_pubmed count_biorxiv count_medrxiv total_papers
                               category_counts].
  split; [apply count_source_known, (run_sources _ _ _ _ _ _ Hrun) |].
  split; [| reflexivity].
  destruct (categorize_fold (all_papers self1) empty_categories) as (H1 & H2 & H3 & H4 & H5).
  cbn [mechanism therapeutics models dataset other empty_categories app] in H1, H2, H3, H4, H5.
  unfold categorize_papers. rewrite H1, H2, H3, H4, H5.
  cbn [map snd]. unfold list_sum. cbn [fold_right].
  rewrite <- (categories_cover (all_papers self1)).
  rewrite Nat.add_0_r, !Nat.add_assoc. reflexivity.
Qed.

Lemma run_search_counts_witness :
  let w := {| esearch_replies := []; esummary_replies := [];
              details_replies := [Some sample_page; None]; log := []; files := [] |} in
  exists res w',
    run_search "/tmp/d" "2026-02-01" "2026-02-08" w = (Ok res, w')
    /\ (count_pubmed res + count_biorxiv res + count_medrxiv res)%nat = total_papers res.
Proof.
  intros w.
  destruct (run_search "/tmp/d" "2026-02-01" "2026-02-08" w) as [[res | ex] w'] eqn:Hres;
    [| vm_compute in Hres; discriminate].
  exists res, w'. split; [reflexivity |].
  exact (proj1 (run_search_counts _ _ _ _ _ _ Hres)).
Defined.

Section Files.

Implicit Types (s t cur a b : string) (w : world).









End Files.



(* ================================================================== *)
(** * Further properties of the command line and of the orchestrator *)
(* ================================================================== *)

(** X20: with no date on the command line, and a [datetime] whose printed
    dates parse back, [main] searches the week that ends today: the end date
    is today's, the start date that of seven days before, and the status is 0
    unless [run] raises. *)
Theorem main_default_dates {datetime : Type} `{Datetime datetime}
    (now today week_ago : datetime) (args : arguments) (w : world) :
  not_given (arg_start args) = true -> not_given (arg_end args) = true ->
  strptime (strftime now) = Some today ->
  minus_days today 7 = Some week_ago ->
  strptime (strftime week_ago) <> None ->
  main now args w
  = match run (init (strftime week_ago) (strftime now) (arg_output args)) w with
    | (Raised e, _, w1) => (Raised e, w1)
    | (Ok _, _, w1) => (Ok 0, w1)
    end.
Proof.
  intros Hs He Hnow Hweek Hparse. unfold main. rewrite Hs, He, Hnow, Hweek.
  destruct (strptime (strftime week_ago)); [reflexivity | congruence].
Qed.

Lemma main_default_dates_witness :
  let args := {| arg_start := None; arg_end := None; arg_output := "out"%string |} in
  let now := Calendar.Date 2026 3 3 in
  strftime now = "2026-03-03"%string
  /\ strftime (Calendar.Date 2026 2 24) = "2026-02-24"%string
  /\ main now args quiet_world
     = match run (init (strftime (Calendar.Date 2026 2 24)) (strftime now)
                       (arg_output args)) quiet_world with
       | (Raised e, _, w1) => (Raised e, w1)
       | (Ok _, _, w1) => (Ok 0, w1)
       end.
Proof.
  intros args now. split; [reflexivity |]. split; [reflexivity |].
  apply (main_default_dates now now (Calendar.Date 2026 2 24) args quiet_world);
    try reflexivity.
  discriminate.
Defined.

Section Layout.

Implicit Types (p : paper) (ps papers : list paper) (cats : categories).

Lemma slice_to_length {A} (n : Z) (l : list A) :
  0 <= n -> (length (Py.slice_to n l) <= Z.to_nat n)%nat.
Proof. intros Hn. rewrite slice_to_nonneg by exact Hn. rewrite length_take. lia. Qed.

Lemma flat_map_highlight_length ps : length (flat_map highlight ps) = (2 * length ps)%nat.
Proof. induction ps as [| p ps IH]; [reflexivity |]. cbn [flat_map highlight app length]. lia. Qed.

Lemma flat_map_highlight_breaks ps :
  List.filter is_page_break (flat_map highlight ps) = [].
Proof. induction ps as [| p ps IH]; [reflexivity |]. cbn. exact IH. Qed.

Lemma highlight_section_length heading (cap : Z) spaced ps :
  0 <= cap ->
  (length (highlight_section heading cap spaced ps)
   <= 2 * Z.to_nat cap + (if spaced then 2 else 1))%nat.
Proof.
  intros Hcap. unfold highlight_section.
  destruct ps as [| p ps]; [destruct spaced; cbn; lia |].
  pose proof (slice_to_length cap (p :: ps) Hcap) as Hlen.
  cbn [length]. rewrite length_app, flat_map_highlight_length.
  destruct spaced; cbn [length]; lia.
Qed.

Lemma highlight_section_breaks heading (cap : Z) spaced ps :
  List.filter is_page_break (highlight_section heading cap spaced ps) = [].
Proof.
  unfold highlight_section. destruct ps as [| p ps]; [reflexivity |].
  cbn [List.filter is_page_break]. rewrite List.filter_app, flat_map_highlight_breaks.
  destruct spaced; reflexivity.
Qed.

Lemma paper_entries_length (i : nat) papers :
  length (paper_entries i papers) = (4 * length papers)%nat.
Proof.
  revert i. induction papers as [| p ps IH]; intros i; [reflexivity |].
  cbn [paper_entries app length]. rewrite IH. lia.
Qed.

Lemma paper_entries_breaks (i : nat) papers :
  List.filter is_page_break (paper_entries i papers) = [].
Proof.
  revert i. induction papers as [| p ps IH]; intros i; [reflexivity |].
  cbn [paper_entries app List.filter is_page_break]. apply IH.
Qed.

Lemma paper_entries_title (i j : nat) papers p :
  papers !! j = Some p -> In (numbered_title (i + j) p) (paper_entries (S i) papers).
Proof.
  revert i j. induction papers as [| q qs IH]; intros i j Hj; [discriminate |].
  cbn [paper_entries]. destruct j as [| j].
  - injection Hj as ->. rewrite Nat.add_0_r. left. reflexivity.
  - right. right. right. right. replace (i + S j)%nat with (S i + j)%nat by lia.
    apply IH. exact Hj.
Qed.

End Layout.

Section Story.

Implicit Types (papers : list paper) (cats : categories).

Lemma pdf_story_parts (start_date end_date : string) papers cats
    (pubmed_count biorxiv_count medrxiv_count : nat) :
  pdf_story start_date end_date papers cats pubmed_count biorxiv_count medrxiv_count
  = (story_header start_date end_date papers pubmed_count biorxiv_count medrxiv_count
     ++ notable_findings cats)
    ++ PageBreak
       :: Paragraph ("COMPLETE PAPER LIST (" +:+ pretty (length papers) +:+ " PAPERS)")
                    heading1_style
       :: Spacer 1 15 :: paper_entries 1 papers.
Proof. unfold pdf_story, story_header. rewrite <- app_assoc. reflexivity. Qed.

Lemma notable_findings_length cats : (length (notable_findings cats) <= 35)%nat.
Proof.
  unfold notable_findings. rewrite !length_app.
  pose proof (highlight_section_length "MECHANISM:" 3 true (mechanism cats)) as L1.
  pose proof (highlight_section_length "THERAPEUTICS:" 4 true (therapeutics cats)) as L2.
  pose proof (highlight_section_length "MODELS:" 4 true (models cats)) as L3.
  pose proof (highlight_section_length "NEW DATA SETS:" 3 false (dataset cats)) as L4.
  change (Z.to_nat 3) with 3%nat in *. change (Z.to_nat 4) with 4%nat in *.
  revert L1 L2 L3 L4.
  generalize (length (highlight_section "MECHANISM:" 3 true (mechanism cats))).
  generalize (length (highlight_section "THERAPEUTICS:" 4 true (therapeutics cats))).
  generalize (length (highlight_section "MODELS:" 4 true (models cats))).
  generalize (length (highlight_section "NEW DATA SETS:" 3 false (dataset cats))).
  intros n4 n3 n2 n1 L1 L2 L3 L4.
  specialize (L1 ltac:(lia)). specialize (L2 ltac:(lia)).
  specialize (L3 ltac:(lia)). specialize (L4 ltac:(lia)). lia.
Qed.

Lemma notable_findings_breaks cats :
  List.filter is_page_break (notable_findings cats) = [].
Proof.
  unfold notable_findings. rewrite !List.filter_app, !highlight_section_breaks.
  reflexivity.
Qed.

End Story.

(** X21: the story of the document is a front part, one page break, and the
    complete list.  The front part has 43 flowables at most, however many
    papers there are: the notable findings show no more than 3, 4, 4 and 3
    papers.  The complete list has its heading, a spacer and four flowables
    for each paper, among them the title of paper i under the number i + 1. *)
Theorem pdf_story_layout (start_date end_date : string) (papers : list paper)
    (cats : categories) (pubmed_count biorxiv_count medrxiv_count : nat) :
  exists front back,
    pdf_story start_date end_date papers cats pubmed_count biorxiv_count medrxiv_count
    = front ++ PageBreak :: back
    /\ List.filter is_page_break front = []
    /\ List.filter is_page_break back = []
    /\ (length front <= 43)%nat
    /\ length back = (2 + 4 * length papers)%nat
    /\ (forall i p, papers !! i = Some p -> In (numbered_title i p) back).
Proof.
  exists (story_header start_date end_date papers pubmed_count biorxiv_count medrxiv_count
            ++ notable_findings cats).
  eexists. split; [apply pdf_story_parts |].
  split; [| split; [| split; [| split]]].
  - rewrite List.filter_app, notable_findings_breaks. reflexivity.
  - cbn [List.filter is_page_break]. apply paper_entries_breaks.
  - rewrite length_app. pose proof (notable_findings_length cats) as Hn.
    change (length (story_header start_date end_date papers pubmed_count biorxiv_count
                      medrxiv_count)) with 8%nat.
    revert Hn. generalize (length (notable_findings cats)). intros n Hn. lia.
  - cbn [length]. rewrite paper_entries_length. reflexivity.
  - intros i p Hi. right. right. apply (paper_entries_title 0 i papers p Hi).
Qed.

Section FirstRequests.

Variables server start_date end_date : string.

(** The first thing the loop over the pages does is ask for the page at its
    cursor. *)
Lemma preprint_loop_first (q : list (option details_json)) (cursor : Z)
    (papers : list paper) (lg : list event) :
  exists l, (preprint_loop server start_date end_date q cursor papers lg).2
            = lg ++ Get (page_request server start_date end_date cursor) :: l.
Proof.
  destruct q as [| [data |] rest]; cbn [preprint_loop].
  - exists []. reflexivity.
  - destruct (default [] (collection data)) as [| item items]; [exists []; reflexivity |].
    destruct (page_total data) as [total_count | ex]; [| exists []; reflexivity].
    destruct (cursor + page_size >=? total_count); [exists []; reflexivity |].
    destruct (preprint_loop_quiet server start_date end_date rest (cursor + page_size)
                (papers ++ relevant_records server (item :: items))
                ((lg ++ [Get (page_request server start_date end_date cursor)])
                 ++ [Sleep 300])) as (l & Hl & _).
    rewrite Hl. exists (Sleep 300 :: l). rewrite <- !app_assoc. reflexivity.
  - exists []. reflexivity.
Qed.

End FirstRequests.

(** X22: a search request that fails does not keep [run] from the preprint
    servers: the events of [run] start with the search request, then, with no
    detail request in between, the request for the first page of bioRxiv. *)
Theorem run_after_failed_search (self : searcher) (w : world) :
  head (esearch_replies w) = None \/ head (esearch_replies w) = Some None ->
  (pubmed_stage self w).1 = ([], self)
  /\ exists l,
       log (run self w).2
       = log w ++ Get (esearch_request self)
           :: Get (page_request "biorxiv" (start_date self) (end_date self) 0) :: l.
Proof.
  intros Hfail.
  assert (Hstage : pubmed_stage self w
                   = ([], self,
                      {| esearch_replies := tail (esearch_replies w);
                         esummary_replies := esummary_replies w;
                         details_replies := details_replies w;
                         log := log w ++ [Get (esearch_request self)];
                         files := files w |})).
  { unfold pubmed_stage, search_pubmed, get_esearch, record_event.
    cbn [esearch_replies log esummary_replies details_replies files].
    destruct (esearch_replies w) as [| [d |] q]; cbn in Hfail |- *.
    - reflexivity.
    - destruct Hfail; discriminate.
    - reflexivity. }
  split; [rewrite Hstage; reflexivity |].
  unfold run. rewrite Hstage. unfold search_biorxiv, search_medrxiv.
  set (w1 := {| esearch_replies := tail (esearch_replies w);
                esummary_replies := esummary_replies w;
                details_replies := details_replies w;
                log := log w ++ [Get (esearch_request self)];
                files := files w |}).
  assert (Hbio : exists l, log (_search_preprint_server self "biorxiv" w1).2
                   = log w ++ Get (esearch_request self)
                       :: Get (page_request "biorxiv" (start_date self) (end_date self) 0)
                       :: l).
  { unfold _search_preprint_server.
    destruct (preprint_loop_first "biorxiv" (start_date self) (end_date self)
                (details_replies w1) 0 [] (log w1)) as [l Hl].
    destruct (preprint_loop _ _ _ _ _ _ _) as [[r replies] lg]. cbn in Hl |- *.
    exists l. rewrite Hl. unfold w1. cbn [log]. rewrite <- app_assoc. reflexivity. }
  destruct Hbio as [l1 Hl1].
  destruct (_search_preprint_server self "biorxiv" w1) as [[bio | ex] w2]; cbn in Hl1 |- *.
  2: { exists l1. exact Hl1. }
  destruct (search_preprint_server_quiet self "medrxiv" w2) as (_ & l2 & Hl2 & _).
  destruct (_search_preprint_server self "medrxiv" w2) as [[med | ex] w3]; cbn in Hl2 |- *.
  2: { exists (l1 ++ l2). rewrite Hl2, Hl1, <- app_assoc. reflexivity. }
  cbn [all_papers with_all_papers].
  destruct ((all_papers self ++ bio) ++ med).
  - exists (l1 ++ l2). cbn. rewrite Hl2, Hl1, <- app_assoc. reflexivity.
  - eexists. cbn. rewrite Hl2, Hl1, <- !app_assoc. cbn [app]. reflexivity.
Qed.

Lemma run_after_failed_search_witness :
  let self := init "2026-02-01" "2026-02-08" "out" in
  let w := {| esearch_replies := [None]; esummary_replies := [];
              details_replies := []; log := []; files := [] |} in
  (head (esearch_replies w) = None \/ head (esearch_replies w) = Some None)
  /\ (pubmed_stage self w).1 = ([], self).
Proof.
  intros self w.
  assert (H : head (esearch_replies w) = None \/ head (esearch_replies w) = Some None)
    by (right; reflexivity).
  split; [exact H |].
  exact (proj1 (run_after_failed_search self w H)).
Defined.

(** X23: [run] only adds to the papers a searcher holds: when it returns, the
    papers held are those held before followed by the new ones, each from one
    of the three sources, and the dates and the directory of the searcher are
    as they were. *)
Theorem run_accumulates (self self' : searcher) (w w' : world) :
  run self w = (Ok tt, self', w') ->
  (exists new, all_papers self' = all_papers self ++ new /\ Forall known_source new)
  /\ start_date self' = start_date self
  /\ end_date self' = end_date self
  /\ output_dir self' = output_dir self.
Proof.
  intros Hrun. unfold run in Hrun.
  pose proof (pubmed_stage_papers self w) as Hpapers.
  pose proof (pubmed_stage_sources self w) as Hpub.
  assert (Hsame : start_date (pubmed_stage self w).1.2 = start_date self
                  /\ end_date (pubmed_stage self w).1.2 = end_date self
                  /\ output_dir (pubmed_stage self w).1.2 = output_dir self).
  { unfold pubmed_stage. destruct (search_pubmed self w) as [[| p ps] w0];
      [repeat split |].
    destruct (get_pubmed_metadata self (p :: ps) 100 w0). repeat split. }
  destruct (pubmed_stage self w) as [[pubmed_papers self1] w1].
  cbn in Hpapers, Hpub, Hsame. destruct Hsame as (Hs & He & Ho).
  unfold search_biorxiv, search_medrxiv in Hrun.
  pose proof (search_preprint_server_sources self1 "biorxiv" w1) as Hbio.
  destruct (_search_preprint_server self1 "biorxiv" w1) as [[bio | ex] w2];
    [| discriminate].
  pose proof (search_preprint_server_sources self1 "medrxiv" w2) as Hmed.
  destruct (_search_preprint_server self1 "medrxiv" w2) as [[med | ex] w3];
    [| discriminate].
  specialize (Hbio bio eq_refl). specialize (Hmed med eq_refl).
  assert (Hnew : (all_papers self1 ++ bio) ++ med
                 = all_papers self ++ (pubmed_papers ++ bio ++ med)
                 /\ Forall known_source (pubmed_papers ++ bio ++ med)).
  { split; [rewrite Hpapers, <- !app_assoc; reflexivity |].
    repeat apply Forall_app_2.
    - exact Hpub.
    - eapply Forall_impl; [exact Hbio |]. intros p Hp. right. left. exact Hp.
    - eapply Forall_impl; [exact Hmed |]. intros p Hp. right. right. exact Hp. }
  destruct Hnew as [Heq Hknown].
  cbn [all_papers with_all_papers] in Hrun.
  destruct ((all_papers self1 ++ bio) ++ med) as [| p ps] eqn:Hall;
    injection Hrun as <- _;
    cbn [all_papers with_all_papers start_date end_date output_dir];
    (split; [exists (pubmed_papers ++ bio ++ med); split; [exact Heq | exact Hknown] |]);
    repeat split; assumption.
Qed.

Lemma run_accumulates_witness :
  let self := with_all_papers (init "2026-02-01" "2026-02-08" "out") [first_record] in
  exists self' w',
    run self quiet_world = (Ok tt, self', w')
    /\ exists new, all_papers self' = all_papers self ++ new.
Proof.
  intros self.
  destruct (run self quiet_world) as [[r self'] w'] eqn:Hrun.
  assert (Hr : r = Ok tt) by (vm_compute in Hrun; congruence).
  subst r. exists self', w'. split; [reflexivity |].
  destruct (run_accumulates self self' quiet_world w' Hrun) as [(new & Hnew & _) _].
  exists new. exact Hnew.
Defined.
